(** * HealthChain: the [ehr] decorator and [EHRClient]

    A shallow embedding of [healthchain/clients/ehrclient.py].

    Python code that raises, logs, calls collaborators (the decorated
    data-generator function, the strategy, the data generators of the use
    case, the HTTP client) and mutates the client's request queue is written
    in a small state-and-exception monad: a computation takes the state and
    returns either a value or the exception raised, together with the state
    at that point (an exception does not roll the state back).

    The state of the world holds the collaborators' own state [env] and a
    [trace] of what the code did to the outside: every collaborator call,
    every construction of an [EHRClient] and every log record, in order.

    What is taken for granted: the collaborators work on [env] only (none
    of them holds the client, which is a local of the wrapper until it is
    returned); reading [self.type] and [self.strategy] does not raise; what
    a collaborator raises is an [Exception]. *)

From Stdlib Require Import ZArith List Ascii String Bool Lia Decimal DecimalString.
Import ListNotations.
Set Warnings "-register-all".
Local Open Scope string_scope.

(** ** Values *)

(** JSON-like Python values: what [response.json()] returns and what
    [model_dump] produces. [JObj []] is the empty mapping [{}]. *)
Inductive Json : Type :=
| JNull
| JBool (b : bool)
| JNum (z : Z)
| JStr (s : string)
| JArr (items : list Json)
| JObj (fields : list (string * Json)).

Definition empty_mapping : Json := JObj [].

(** Modelled from the spec: [healthchain.models.CDSRequest] and pydantic's
    [model_dump] are not part of the sources at hand. A request is its
    fields in declaration order, each with a value or Python's [None]. *)
Definition CDSRequest : Type := list (string * option Json).

(** Modelled from the spec: [request.model_dump(exclude_none=...)], the wire
    contract's "fields with empty/absent values omitted". With
    [exclude_none] a field whose value is [None] is left out; without it the
    field is dumped as JSON null. *)
Fixpoint model_dump_fields (exclude_none : bool) (request : CDSRequest)
  : list (string * Json) :=
  match request with
  | [] => []
  | (name, Some v) :: rest => (name, v) :: model_dump_fields exclude_none rest
  | (name, None) :: rest =>
      if exclude_none then model_dump_fields exclude_none rest
      else (name, JNull) :: model_dump_fields exclude_none rest
  end.

Definition model_dump (exclude_none : bool) (request : CDSRequest) : Json :=
  JObj (model_dump_fields exclude_none request).

(** [httpx.Timeout(10.0, read=None)]: seconds per phase, [None] for no limit. *)
Record Timeout : Type := mkTimeout {
  connect : option Z;
  read : option Z;
  write : option Z;
  pool : option Z
}.

Definition httpx_Timeout (default : Z) (read : option Z) : Timeout :=
  mkTimeout (Some default) read (Some default) (Some default).

(** ** Exceptions

    Every exception below is an instance of Python's [Exception].
    [TimeoutException] is a subclass of [RequestError] in httpx; here
    [RequestError] stands for the request errors that are not timeouts, and
    the handlers of [send_request] are tried in the source's order.
    [OtherException] is any other exception a collaborator raises. Each
    carries its [str]; the httpx ones also the status code of
    [exc.response] and the URL the request [exc.request] was made to, as
    it was given to httpx (see [url_repr] for what is logged of it). *)
Inductive exn : Type :=
| AssertionError (msg : string)
| ValueError (msg : string)
| NotImplementedError (msg : string)
| TypeError (msg : string)
| HTTPStatusError (msg : string) (status_code : Z) (url : string)
| TimeoutException (msg : string) (url : string)
| RequestError (msg : string) (url : string)
| OtherException (msg : string).

Inductive result (A : Type) : Type :=
| Ok (a : A)
| Raise (e : exn).
Arguments Ok {A} a.
Arguments Raise {A} e.

Definition is_Ok {A} (r : result A) : bool :=
  match r with Ok _ => true | Raise _ => false end.

(** ** Formatting, as the f-strings of the source do it *)

Definition str_of_Z (z : Z) : string := NilZero.string_of_int (Z.to_int z).

(** [repr] of a [str], as CPython writes it: between single quotes, or
    between double quotes when the string holds a single quote and no double
    quote; the quote in use and the backslash are escaped, tab, newline and
    carriage return are written [\t], [\n], [\r], and the other control
    characters [\xNN]. A string is its bytes here: the bytes of a character
    outside ASCII are copied, as [repr] does for a printable character. *)
Fixpoint has_char (c : ascii) (s : string) : bool :=
  match s with
  | EmptyString => false
  | String x rest => Ascii.eqb x c || has_char c rest
  end.

Definition hex_digit (n : nat) : ascii :=
  nth n ["0"; "1"; "2"; "3"; "4"; "5"; "6"; "7"; "8"; "9";
         "a"; "b"; "c"; "d"; "e"; "f"]%char "0"%char.

Definition backslash : ascii := "092"%char.
Definition single_quote : ascii := "039"%char.
Definition double_quote : ascii := "034"%char.

Definition py_escape (quote c : ascii) : string :=
  let n := nat_of_ascii c in
  if Ascii.eqb c quote || Ascii.eqb c backslash then String backslash (String c "")
  else if Ascii.eqb c "009"%char then String backslash "t"
  else if Ascii.eqb c "010"%char then String backslash "n"
  else if Ascii.eqb c "013"%char then String backslash "r"
  else if (n <? 32)%nat || (n =? 127)%nat
       then String backslash
              (String "x" (String (hex_digit (n / 16))
                             (String (hex_digit (n mod 16)) "")))
  else String c "".

Fixpoint py_escape_all (quote : ascii) (s : string) : string :=
  match s with
  | EmptyString => EmptyString
  | String c rest => py_escape quote c ++ py_escape_all quote rest
  end.

Definition py_quote (s : string) : ascii :=
  if has_char single_quote s && negb (has_char double_quote s)
  then double_quote else single_quote.

Definition py_repr (s : string) : string :=
  String (py_quote s) (py_escape_all (py_quote s) s ++ String (py_quote s) "").

(** [repr] of a list of such strings. *)
Definition py_repr_list (l : list string) : string :=
  "[" ++ String.concat ", " (map py_repr l) ++ "]".

Definition exn_str (e : exn) : string :=
  match e with
  | AssertionError m | ValueError m | NotImplementedError m | TypeError m
  | OtherException m => m
  | HTTPStatusError m _ _ | TimeoutException m _ | RequestError m _ => m
  end.

(** ** The monad *)

Definition M (S A : Type) : Type := S -> result A * S.

Definition ret {S A} (a : A) : M S A := fun s => (Ok a, s).

Definition raise {S A} (e : exn) : M S A := fun s => (Raise e, s).

Definition bind {S A B} (c : M S A) (k : A -> M S B) : M S B :=
  fun s =>
    match c s with
    | (Ok a, s') => k a s'
    | (Raise e, s') => (Raise e, s')
    end.

(** [try: body / except ... as e: handler e]; a handler that does not match
    re-raises. *)
Definition try_except {S A} (body : M S A) (handler : exn -> M S A) : M S A :=
  fun s =>
    match body s with
    | (Ok a, s') => (Ok a, s')
    | (Raise e, s') => handler e s'
    end.

Declare Scope py_scope.
Delimit Scope py_scope with py.
Notation "x <- c ;; k" := (bind c (fun x => k))
  (at level 61, c at next level, right associativity) : py_scope.
Notation "c ;; k" := (bind c (fun _ => k))
  (at level 61, right associativity) : py_scope.
Local Open Scope py_scope.

Record Response : Type := mkResponse {
  status_code : Z;
  json : result Json          (* [response.json()] *)
}.

(** ** What the module imports

    The enumerations of [healthchain.workflows] are not part of the sources
    at hand: [Workflow] is taken with its members in iteration order and
    their values, [UseCaseType] with the [str] of its members. [Args] is
    what the decorated function is called with besides [self], [Data] what
    it returns, [Env] the state of the collaborators. [post] is
    [httpx.AsyncClient.post(url=, json=, timeout=)], and
    [status_error_message] the text of the error [raise_for_status] builds.

    [url_repr url] is what [{exc.request.url!r}] prints for the request
    httpx makes when it is asked to post to [url]: the [repr] of the URL it
    parsed ([repr(httpx.URL(url))] for an absolute URL), in its normal form
    (scheme and host in lower case, a default port dropped, a password
    shown as [[secure]]).

    [contains_non_enum x] is what [x in UseCaseType] comes to for an [x]
    that is not a member of any [Enum], given by its [str]: up to Python
    3.11 the test raises [TypeError]; from Python 3.12 on it tells whether
    [x] is the value of a member. *)
Class Setting : Type := {
  Workflow : Type;
  Workflow_members : list Workflow;
  Workflow_value : Workflow -> string;
  UseCaseType : Type;
  UseCaseType_str : UseCaseType -> string;
  Args : Type;
  Data : Type;
  Env : Type;
  post : string -> Json -> Timeout -> Env -> result Response * Env;
  status_error_message : Z -> string -> string;
  url_repr : string -> string;
  contains_non_enum : string -> result bool
}.

Section HealthChain.
Context `{Setting}.

(** The [workflow] argument of [ehr]: a member of the enumeration or a
    string. *)
Inductive WorkflowArg : Type :=
| ByMember (m : Workflow)
| ByValue (s : string).

(** [Workflow(workflow)]: a member is returned as it is, a string is looked
    up among the values. *)
Definition Workflow_call (workflow : WorkflowArg) : result Workflow :=
  match workflow with
  | ByMember m => Ok m
  | ByValue s =>
      match find (fun m => String.eqb (Workflow_value m) s) Workflow_members with
      | Some m => Ok m
      | None => Raise (ValueError (py_repr s ++ " is not a valid Workflow"))
      end
  end.

(** [self.type]: a member of [UseCaseType], a member of another [Enum], or
    a value that is not a member of any [Enum]; the last two with their
    [str]. *)
Inductive TypeAttr : Type :=
| TypeMember (m : UseCaseType)
| TypeForeign (s : string)
| TypeOther (s : string).

(** [self.type in UseCaseType]: true of a member, false of a member of
    another [Enum]; for any other value the test is that of the Python in
    use, and may raise. *)
Definition in_UseCaseType (t : TypeAttr) : result bool :=
  match t with
  | TypeMember _ => Ok true
  | TypeForeign _ => Ok false
  | TypeOther s => contains_non_enum s
  end.

Definition TypeAttr_str (t : TypeAttr) : string :=
  match t with
  | TypeMember m => UseCaseType_str m
  | TypeForeign s | TypeOther s => s
  end.

(** [BaseStrategy]: the interface the client consumes. *)
Record BaseStrategy : Type := mkStrategy {
  construct_request : Data -> Workflow -> Env -> result CDSRequest * Env
}.

(** The object the decorated method is called on. [is_use_case] is
    [issubclass(type(self), BaseUseCase)].

    Modelled from the spec: [find_attributes_of_type] and
    [assign_to_attribute] of [healthchain.decorators] are not part of the
    sources at hand. [data_generator_attributes] is the list of names the
    first returns for [CdsDataGenerator]; [set_workflow name wf] is the
    call [getattr(self, name).set_workflow(wf)] the second makes. *)
Record Caller : Type := mkCaller {
  class_name : string;
  is_use_case : bool;
  type_ : TypeAttr;
  strategy_ : BaseStrategy;
  data_generator_attributes : list string;
  set_workflow : string -> Workflow -> Env -> result unit * Env
}.

(** [generate_request(self, *args, **kwargs)] as the wrapper calls it. *)
Definition CallArgs : Type := (Caller * Args)%type.

Inductive Level : Type := ERROR | WARNING.

Inductive Event : Type :=
| EvSetWorkflow (attribute_name : string) (wf : Workflow)
| EvNewClient
| EvDataGenerator (args : CallArgs)
| EvConstructRequest (data : Data) (wf : Workflow)
| EvPost (url : string) (body : Json) (timeout : Timeout)
| EvLog (level : Level) (msg : string).

Record World : Type := mkWorld {
  env : Env;
  trace : list Event
}.

Definition emit (e : Event) : M World unit :=
  fun w => (Ok tt, mkWorld (env w) (trace w ++ [e])%list).

(** A collaborator call: recorded, then run on the collaborators' state. *)
Definition call {A} (e : Event) (f : Env -> result A * Env) : M World A :=
  fun w =>
    let '(r, env') := f (env w) in
    (r, mkWorld env' (trace w ++ [e])%list).

Definition log_error (msg : string) : M World unit := emit (EvLog ERROR msg).
Definition log_warning (msg : string) : M World unit := emit (EvLog WARNING msg).

Definition of_result {S A} (r : result A) : M S A := fun s => (r, s).

(** Code that also works on a local object [L] (the client [self] inside a
    method, a local list inside a function) runs on [L * World]. *)
Definition in_world {L A} (c : M World A) : M (L * World) A :=
  fun s =>
    let '(r, w') := c (snd s) in
    (r, (fst s, w')).

Definition get_local {L} : M (L * World) L := fun s => (Ok (fst s), s).

Definition modify_local {L} (f : L -> L) : M (L * World) unit :=
  fun s => (Ok tt, (f (fst s), snd s)).

(** Runs [c] on a fresh local object and hands the object back with the
    value; when [c] raises the object is dropped with the frame. *)
Definition with_local {L A} (init : L) (c : M (L * World) A) : M World (A * L) :=
  fun w =>
    match c (init, w) with
    | (Ok a, (l, w')) => (Ok (a, l), w')
    | (Raise e, (_, w')) => (Raise e, w')
    end.

(** [for x in xs: body x] *)
Fixpoint for_each {S X} (xs : list X) (body : X -> M S unit) : M S unit :=
  match xs with
  | [] => ret tt
  | x :: rest => body x ;; for_each rest body
  end.

(** [range(n)] and [len(l)] on Python's integers. *)
Definition range (n : Z) : list Z := map Z.of_nat (seq 0 (Z.to_nat n)).
Definition len {X} (l : list X) : Z := Z.of_nat (List.length l).

(** [l[i]] for an index within the list. *)
Definition item (l : list string) (i : Z) : string := nth (Z.to_nat i) l "".

(** ** [EHRClient] *)

Record EHRClient : Type := mkEHRClient {
  data_generator_func : CallArgs -> Env -> result Data * Env;
  workflow : Workflow;
  strategy : BaseStrategy;
  request_data : list CDSRequest
}.

Definition set_request_data (q : list CDSRequest) (self : EHRClient) : EHRClient :=
  mkEHRClient (data_generator_func self) (workflow self) (strategy self) q.

(** [EHRClient.__init__] *)
Definition EHRClient_init (func : CallArgs -> Env -> result Data * Env)
  (workflow : Workflow) (strategy : BaseStrategy) : M World EHRClient :=
  emit EvNewClient ;;
  ret (mkEHRClient func workflow strategy []).

(** [EHRClient.generate_request]. The argument of [append] is evaluated
    before [append] is called. *)
Definition generate_request (args : CallArgs) : M (EHRClient * World) unit :=
  self <- get_local ;;
  data <- in_world (call (EvDataGenerator args) (data_generator_func self args)) ;;
  self <- get_local ;;
  request <- in_world (call (EvConstructRequest data (workflow self))
                         (construct_request (strategy self) data (workflow self))) ;;
  modify_local (fun self => set_request_data (request_data self ++ [request])%list self).

(** [response.raise_for_status()]: httpx raises for every status that is not
    2xx. *)
Definition is_success (status : Z) : bool :=
  ((200 <=? status) && (status <=? 299))%Z.

Definition raise_for_status {S} (url : string) (response : Response) : M S unit :=
  if is_success (status_code response) then ret tt
  else raise (HTTPStatusError
                (status_error_message (status_code response) url)
                (status_code response) url).

(** The body of the loop of [send_request], on the local [json_responses]. *)
Definition send_one (url : string) (request : CDSRequest)
  : M (list Json * World) unit :=
  try_except
    (let timeout := httpx_Timeout 10 None in
     response <- in_world (call (EvPost url (model_dump true request) timeout)
                             (post url (model_dump true request) timeout)) ;;
     raise_for_status url response ;;
     body <- of_result (json response) ;;
     modify_local (fun json_responses => (json_responses ++ [body])%list))
    (fun exc =>
       match exc with
       | HTTPStatusError _ code u =>
           in_world (log_error ("Error response " ++ str_of_Z code
                                ++ " while requesting " ++ url_repr u ++ ".")) ;;
           modify_local (fun json_responses => (json_responses ++ [empty_mapping])%list)
       | TimeoutException _ u =>
           in_world (log_error ("Request to " ++ url_repr u ++ " timed out!")) ;;
           modify_local (fun json_responses => (json_responses ++ [empty_mapping])%list)
       | RequestError _ u =>
           in_world (log_error ("An error occurred while requesting "
                                ++ url_repr u ++ ".")) ;;
           modify_local (fun json_responses => (json_responses ++ [empty_mapping])%list)
       | _ => raise exc
       end).

(** [EHRClient.send_request]. The [AsyncClient] scope opens before the loop
    and closes after it; requests are awaited one at a time. *)
Definition send_request (self : EHRClient) (url : string) : M World (list Json) :=
  r <- with_local [] (for_each (request_data self) (send_one url)) ;;
  ret (snd r).

(** ** The [ehr] decorator *)

(** Lines 54-59: the workflow identifier is resolved, and the [ValueError]
    of the enumeration is raised again with the valid values. *)
Definition resolve_workflow {S} (workflow : WorkflowArg) : M S Workflow :=
  try_except (of_result (Workflow_call workflow))
    (fun e =>
       match e with
       | ValueError _ =>
           raise (ValueError (exn_str e ++ ": please select from "
                              ++ py_repr_list (map Workflow_value Workflow_members)))
       | _ => raise e
       end).

(** Lines 62-74: the workflow is set in every data generator of the caller. *)
Definition configure_data_generators (self : Caller) (workflow_enum : Workflow)
  : M World unit :=
  let data_generator_attributes := data_generator_attributes self in
  for_each (range (len data_generator_attributes))
    (fun i =>
       let attribute_name := item data_generator_attributes i in
       try_except
         (call (EvSetWorkflow attribute_name workflow_enum)
            (set_workflow self attribute_name workflow_enum))
         (fun e =>
            log_error ("Could not set workflow " ++ Workflow_value workflow_enum
                       ++ " for data generator method " ++ attribute_name
                       ++ ": " ++ exn_str e)) ;;
       if (1 <? i)%Z
       then log_warning "More than one DataGenerator instances found."
       else ret tt).

(** The wrapper the decorator returns in place of [func]. *)
Definition wrapper (func : CallArgs -> Env -> result Data * Env)
  (workflow : WorkflowArg) (num : Z) (self : Caller) (args : Args)
  : M World EHRClient :=
  (if is_use_case self then ret tt
   else raise (AssertionError
                 (class_name self
                  ++ " must be subclass of valid Use Case strategy!"))) ;;
  workflow_enum <- resolve_workflow workflow ;;
  configure_data_generators self workflow_enum ;;
  known <- of_result (in_UseCaseType (type_ self)) ;;
  if known then
    method <- EHRClient_init func workflow_enum (strategy_ self) ;;
    r <- with_local method
           (for_each (range num) (fun _ => generate_request (self, args))) ;;
    ret (snd r)
  else
    raise (NotImplementedError
             ("Use case " ++ TypeAttr_str (type_ self)
              ++ " not recognised, check if implemented.")).

(** [ehr(func, workflow=..., num=...)]: the decorator applied to [func].
    [num] defaults to 1 in the source; the mark [func.is_client = True] is
    for other parts of the framework and is not read here. *)
Definition ehr (func : CallArgs -> Env -> result Data * Env)
  (workflow : WorkflowArg) (num : Z) : Caller -> Args -> M World EHRClient :=
  wrapper func workflow num.

End HealthChain.

(** ** The operations a holder of a client has *)

Section Operations.
Context `{Setting}.

Inductive Operation : Type :=
| OpGenerate (args : CallArgs)
| OpSend (url : string).

Definition run_operation (op : Operation) : M (EHRClient * World) unit :=
  match op with
  | OpGenerate args => generate_request args
  | OpSend url =>
      self <- get_local ;;
      _ <- in_world (send_request self url) ;;
      ret tt
  end.

(** A caller that goes on after an exception: the state after the whole
    sequence of operations. *)
Fixpoint run_operations (ops : list Operation) (s : EHRClient * World)
  : EHRClient * World :=
  match ops with
  | [] => s
  | op :: rest => run_operations rest (snd (run_operation op s))
  end.

End Operations.

(** ** What the collaborators answer

    The answers the collaborators give when they are called one after the
    other, whatever the caller does with them. The code's own run is
    compared with these. *)

Section Answers.
Context `{Setting}.

(** One generation: the data generator, then the strategy. *)
Definition generation (self : EHRClient) (args : CallArgs) (e : Env)
  : result CDSRequest * Env :=
  match data_generator_func self args e with
  | (Ok data, e1) => construct_request (strategy self) data (workflow self) e1
  | (Raise exc, e1) => (Raise exc, e1)
  end.

Fixpoint generations (n : nat) (self : EHRClient) (args : CallArgs) (e : Env)
  : list (result CDSRequest) :=
  match n with
  | O => []
  | S n' =>
      let '(r, e') := generation self args e in
      r :: generations n' self args e'
  end.

Fixpoint post_outcomes (url : string) (queue : list CDSRequest) (e : Env)
  : list (result Response) :=
  match queue with
  | [] => []
  | request :: rest =>
      let '(r, e') := post url (model_dump true request) (httpx_Timeout 10 None) e in
      r :: post_outcomes url rest e'
  end.

Fixpoint env_after_posts (url : string) (queue : list CDSRequest) (e : Env) : Env :=
  match queue with
  | [] => e
  | request :: rest =>
      env_after_posts url rest
        (snd (post url (model_dump true request) (httpx_Timeout 10 None) e))
  end.

Fixpoint set_workflow_outcomes (self : Caller) (wf : Workflow)
  (names : list string) (e : Env) : list (result unit) :=
  match names with
  | [] => []
  | name :: rest =>
      let '(r, e') := set_workflow self name wf e in
      r :: set_workflow_outcomes self wf rest e'
  end.

(** The kinds of outcome of one request. *)
Inductive OutcomeKind : Type :=
| Success (body : Json)
| BadStatus (code : Z)
| TimedOut
| TransportFailure
| Unclassified.

Definition kind_of (o : result Response) : OutcomeKind :=
  match o with
  | Ok response =>
      if is_success (status_code response) then
        match json response with
        | Ok body => Success body
        | Raise _ => Unclassified
        end
      else BadStatus (status_code response)
  | Raise (HTTPStatusError _ code _) => BadStatus code
  | Raise (TimeoutException _ _) => TimedOut
  | Raise (RequestError _ _) => TransportFailure
  | Raise _ => Unclassified
  end.

Definition classified (o : result Response) : bool :=
  match kind_of o with Unclassified => false | _ => true end.

Definition is_failure (o : result Response) : bool :=
  match kind_of o with
  | BadStatus _ | TimedOut | TransportFailure => true
  | _ => false
  end.

(** What the claim says [send_request] records for an outcome. *)
Definition recorded (o : result Response) : Json :=
  match kind_of o with
  | Success body => body
  | _ => empty_mapping
  end.

(** The exceptions the handlers of [send_request] catch. *)
Definition handled (e : exn) : bool :=
  match e with
  | HTTPStatusError _ _ _ | TimeoutException _ _ | RequestError _ _ => true
  | _ => false
  end.

(** ** Reading a trace *)

Definition is_new_client (ev : Event) : bool :=
  match ev with EvNewClient => true | _ => false end.

Definition is_generation (ev : Event) : bool :=
  match ev with EvDataGenerator _ | EvConstructRequest _ _ => true | _ => false end.

Definition is_generator_call (ev : Event) : bool :=
  match ev with EvDataGenerator _ => true | _ => false end.

Definition is_warning (ev : Event) : bool :=
  match ev with EvLog WARNING _ => true | _ => false end.

Definition is_error_record (ev : Event) : bool :=
  match ev with EvLog ERROR _ => true | _ => false end.

(** The attributes [set_workflow] was called on, in order. *)
Definition configured (evs : list Event) : list string :=
  flat_map (fun ev => match ev with EvSetWorkflow a _ => [a] | _ => [] end) evs.

(** The requests posted, in order: destination and body. *)
Definition posted (evs : list Event) : list (string * Json) :=
  flat_map (fun ev => match ev with EvPost u b _ => [(u, b)] | _ => [] end) evs.

(** The prefix order on queues. *)
Definition extends {X} (q' q : list X) : Prop := exists added, q' = (q ++ added)%list.

(** What the [try] body of [send_request] comes to, given the answer to the
    POST: the parsed body, or the exception raised in it. *)
Definition delivery (url : string) (o : result Response) : result Json :=
  match o with
  | Ok response =>
      if is_success (status_code response) then json response
      else Raise (HTTPStatusError
                    (status_error_message (status_code response) url)
                    (status_code response) url)
  | Raise e => Raise e
  end.

(** The record the handlers of [send_request] log for an exception they
    catch. *)
Definition failure_record (e : exn) : option string :=
  match e with
  | HTTPStatusError _ code u =>
      Some ("Error response " ++ str_of_Z code
            ++ " while requesting " ++ url_repr u ++ ".")
  | TimeoutException _ u => Some ("Request to " ++ url_repr u ++ " timed out!")
  | RequestError _ u =>
      Some ("An error occurred while requesting " ++ url_repr u ++ ".")
  | _ => None
  end.

(** The loop of [send_request] from some position on: the results so far
    and the requests still to send. *)
Definition send_remaining (url : string) (json_responses : list Json)
  (remaining : list CDSRequest) : M World (list Json) :=
  r <- with_local json_responses (for_each remaining (send_one url)) ;;
  ret (snd r).

(** The body [send_request] posts for a request, with its destination. *)
Definition wire (url : string) (request : CDSRequest) : string * Json :=
  (url, model_dump true request).

(** The record the configuration loop logs when [set_workflow] raises. *)
Definition configuration_error (wf : Workflow) (attribute_name : string)
  (e : exn) : string :=
  "Could not set workflow " ++ Workflow_value wf
  ++ " for data generator method " ++ attribute_name ++ ": " ++ exn_str e.

(** What the configuration loop does to the outside for the attributes
    [names], the first of which has index [i]. *)
Fixpoint configuration_trace (self : Caller) (wf : Workflow) (i : nat)
  (names : list string) (e : Env) : list Event :=
  match names with
  | [] => []
  | name :: rest =>
      let '(r, e') := set_workflow self name wf e in
      (EvSetWorkflow name wf
       :: match r with
          | Ok _ => []
          | Raise exc => [EvLog ERROR (configuration_error wf name exc)]
          end
       ++ (if (1 <? Z.of_nat i)%Z
           then [EvLog WARNING "More than one DataGenerator instances found."]
           else [])
       ++ configuration_trace self wf (S i) rest e')%list
  end.

Fixpoint env_after_configuration (self : Caller) (wf : Workflow)
  (names : list string) (e : Env) : Env :=
  match names with
  | [] => e
  | name :: rest =>
      env_after_configuration self wf rest (snd (set_workflow self name wf e))
  end.

(** [x] occurs in [s]. *)
Definition occurs_in (x s : string) : Prop :=
  exists pre post, s = pre ++ x ++ post.

End Answers.

(** ** What an event of a given phase looks like *)

Section Phases.
Context `{Setting}.

(** What [send_request] does to the outside when it is given [url]: a POST
    to [url] with the timeouts of the source, or an error record. *)
Definition send_event (url : string) (ev : Event) : Prop :=
  match ev with
  | EvPost u _ t => u = url /\ t = httpx_Timeout 10 None
  | EvLog ERROR _ => True
  | _ => False
  end.

(** What the generation loop does to the outside: the data generator is
    called with [args], the strategy with the workflow [wf]. *)
Definition generation_event (args : CallArgs) (wf : Workflow) (ev : Event) : Prop :=
  match ev with
  | EvDataGenerator a => a = args
  | EvConstructRequest _ wf' => wf' = wf
  | _ => False
  end.

Definition is_send (op : Operation) : bool :=
  match op with OpSend _ => true | OpGenerate _ => false end.

End Phases.

(** ** A sample setting

    A small instance of everything the module imports, used to run the code
    on concrete inputs: two workflows, two use-case categories, and
    collaborators whose answers depend on how often they were called. The
    URLs of the sample are in httpx's normal form and hold no password, so
    that the [repr] of one is [URL('...')] around it; the membership test is
    that of Python up to 3.11 and the values that are no [Enum] members are
    strings. *)

Module Sample.

Inductive SampleWorkflow : Type := patient_view | order_sign.

Definition value (m : SampleWorkflow) : string :=
  match m with
  | patient_view => "patient-view"
  | order_sign => "order-sign"
  end.

Inductive SampleUseCase : Type := cds | clindoc.

Definition use_case_str (m : SampleUseCase) : string :=
  match m with
  | cds => "UseCaseType.cds"
  | clindoc => "UseCaseType.clindoc"
  end.

Record SampleEnv : Type := mkEnv {
  posts_served : nat;
  records_made : nat
}.

Definition cards : Json := JObj [("cards", JArr [])].

(** The destination [down] never answers in time. Elsewhere the answers
    are, in order: 200, 500, 200, a timeout, a connection error, an error
    that is not httpx's, and from then on 200 with a body that is not JSON. *)
Definition down : string := "http://down.example/cds".
Definition up : string := "http://ehr.example/cds".

Definition sample_post (url : string) (body : Json) (t : Timeout) (e : SampleEnv)
  : result Response * SampleEnv :=
  let e' := mkEnv (S (posts_served e)) (records_made e) in
  if String.eqb url down then (Raise (TimeoutException "timed out" url), e')
  else
    match posts_served e with
    | 0%nat => (Ok (mkResponse 200 (Ok cards)), e')
    | 1%nat => (Ok (mkResponse 500 (Ok JNull)), e')
    | 2%nat => (Ok (mkResponse 200 (Ok cards)), e')
    | 3%nat => (Raise (TimeoutException "timed out" url), e')
    | 4%nat => (Raise (RequestError "connection refused" url), e')
    | 5%nat => (Raise (OtherException "stream closed"), e')
    | _ => (Ok (mkResponse 200 (Raise (ValueError "Expecting value"))), e')
    end.

#[export] Instance sample : Setting := {|
  Workflow := SampleWorkflow;
  Workflow_members := [patient_view; order_sign];
  Workflow_value := value;
  UseCaseType := SampleUseCase;
  UseCaseType_str := use_case_str;
  Args := bool;
  Data := Z;
  Env := SampleEnv;
  post := sample_post;
  status_error_message := fun code url => "Error " ++ str_of_Z code;
  url_repr := fun url => "URL(" ++ py_repr url ++ ")";
  contains_non_enum := fun x =>
    Raise (TypeError "unsupported operand type(s) for 'in': 'str' and 'EnumMeta'")
|}.

(** The strategy builds a request from the data; it refuses data above 2. *)
Definition sample_strategy : BaseStrategy :=
  mkStrategy
    (fun (data : Data) (wf : Workflow) (e : Env) =>
       if (data <? 3)%Z
       then (Ok [("hook", Some (JStr (value wf)));
                 ("hookInstance", Some (JNum data));
                 ("fhirServer", None);
                 ("prefetch", Some (JObj []))], e)
       else (Raise (ValueError "no more patients"), e)).

(** The decorated function: it numbers the records it makes, and raises
    when its argument says so. *)
Definition sample_func (args : CallArgs) (e : Env) : result Data * Env :=
  if snd args then (Raise (OtherException "no data"), e)
  else (Ok (Z.of_nat (records_made e)),
        mkEnv (posts_served e) (S (records_made e))).

Definition sample_set_workflow (name : string) (wf : Workflow) (e : Env)
  : result unit * Env :=
  if String.eqb name "broken_generator"
  then (Raise (OtherException "workflow not supported"), e)
  else (Ok tt, e).

Definition use_case (attributes : list string) : Caller :=
  mkCaller "ClinicalDecisionSupport" true (TypeMember cds) sample_strategy
    attributes sample_set_workflow.

Definition not_a_use_case : Caller :=
  mkCaller "Notebook" false (TypeOther "None") sample_strategy
    [] sample_set_workflow.

Definition unknown_use_case : Caller :=
  mkCaller "Imaging" true (TypeForeign "Modality.imaging") sample_strategy
    ["data_generator"] sample_set_workflow.

Definition untyped_use_case : Caller :=
  mkCaller "Imaging" true (TypeOther "imaging") sample_strategy
    ["data_generator"] sample_set_workflow.

Definition start : World := mkWorld (mkEnv 0 0) [].

Definition client (queue : list CDSRequest) : EHRClient :=
  mkEHRClient sample_func patient_view sample_strategy queue.

Definition request (n : Z) : CDSRequest :=
  [("hook", Some (JStr "patient-view"));
   ("hookInstance", Some (JNum n));
   ("fhirServer", None);
   ("prefetch", Some (JObj []))].

End Sample.

(** * Properties *)

Section Properties.
Context `{Setting}.

Lemma extends_refl {X} (q : list X) : extends q q.
Proof. exists []. now rewrite app_nil_r. Qed.

Lemma extends_trans {X} (q1 q2 q3 : list X) :
  extends q2 q1 -> extends q3 q2 -> extends q3 q1.
Proof.
  intros [a Ha] [b Hb]. exists (a ++ b)%list.
  now rewrite Hb, Ha, app_assoc.
Qed.

(** ** [generate_request] *)

(** The three ways a call of [generate_request] can go. *)
Lemma generate_request_run (args : CallArgs) (self : EHRClient) (w : World) :
  generate_request args (self, w) =
  match data_generator_func self args (env w) with
  | (Raise e, e1) =>
      (Raise e, (self, mkWorld e1 (trace w ++ [EvDataGenerator args])%list))
  | (Ok data, e1) =>
      let tr := ((trace w ++ [EvDataGenerator args])
                 ++ [EvConstructRequest data (workflow self)])%list in
      match construct_request (strategy self) data (workflow self) e1 with
      | (Raise e, e2) => (Raise e, (self, mkWorld e2 tr))
      | (Ok request, e2) =>
          (Ok tt, (set_request_data (request_data self ++ [request])%list self,
                   mkWorld e2 tr))
      end
  end.
Proof.
  unfold generate_request, bind, get_local, in_world, call, modify_local; simpl.
  destruct (data_generator_func self args (env w)) as [[data|e] e1]; simpl; auto.
  destruct (construct_request (strategy self) data (workflow self) e1)
    as [[request|e] e2]; reflexivity.
Qed.

(** In terms of the collaborators' answer: the request is appended when the
    generation gives one, and the client is untouched when it raises. *)
Lemma generate_request_generation (args : CallArgs) (self : EHRClient) (w : World) :
  exists w',
    env w' = snd (generation self args (env w))
    /\ generate_request args (self, w) =
       match fst (generation self args (env w)) with
       | Ok request =>
           (Ok tt, (set_request_data (request_data self ++ [request])%list self, w'))
       | Raise e => (Raise e, (self, w'))
       end.
Proof.
  rewrite generate_request_run. unfold generation.
  destruct (data_generator_func self args (env w)) as [[data|e] e1]; simpl.
  - destruct (construct_request (strategy self) data (workflow self) e1)
      as [[request|e] e2]; simpl; eexists; split; try reflexivity; reflexivity.
  - eexists; split; try reflexivity; reflexivity.
Qed.

Lemma generate_request_extends (args : CallArgs) (s : EHRClient * World) :
  extends (request_data (fst (snd (generate_request args s))))
          (request_data (fst s)).
Proof.
  destruct s as [self w]. rewrite generate_request_run.
  destruct (data_generator_func self args (env w)) as [[data|e] e1]; simpl.
  - destruct (construct_request (strategy self) data (workflow self) e1)
      as [[request|e] e2]; simpl.
    + now exists [request].
    + apply extends_refl.
  - apply extends_refl.
Qed.

Lemma run_operation_extends (op : Operation) (s : EHRClient * World) :
  extends (request_data (fst (snd (run_operation op s))))
          (request_data (fst s)).
Proof.
  destruct op as [args|url]; simpl.
  - apply generate_request_extends.
  - destruct s as [self w].
    unfold bind, get_local, in_world; simpl.
    destruct (send_request self url w) as [[r|e] w']; simpl; apply extends_refl.
Qed.

Lemma run_operations_extends (ops : list Operation) (s : EHRClient * World) :
  extends (request_data (fst (run_operations ops s))) (request_data (fst s)).
Proof.
  revert s. induction ops as [|op ops IH]; intros s; simpl.
  - apply extends_refl.
  - eapply extends_trans; [apply run_operation_extends | apply IH].
Qed.

(** C6: a successful [generate_request] appends exactly one request at the
    end of the queue: the queue is one longer, every entry that was queued
    is still at its position, and the new last entry is the request the
    strategy built. No operation of the client removes or reorders: after
    any further sequence of [generate_request] and [send_request] calls,
    failed ones included, the queue still starts with the same entries. *)
Theorem generate_request_appends_one
  (args : CallArgs) (self self' : EHRClient) (w w' : World) :
  generate_request args (self, w) = (Ok tt, (self', w')) ->
  (exists request,
      fst (generation self args (env w)) = Ok request
      /\ request_data self' = (request_data self ++ [request])%list)
  /\ List.length (request_data self') = S (List.length (request_data self))
  /\ (forall i r, nth_error (request_data self) i = Some r ->
                  nth_error (request_data self') i = Some r)
  /\ (forall ops,
        extends (request_data (fst (run_operations ops (self', w'))))
                (request_data self')).
Proof.
  intros Hrun.
  destruct (generate_request_generation args self w) as [w1 [_ Hgen]].
  rewrite Hrun in Hgen.
  destruct (fst (generation self args (env w))) as [request|e] eqn:Hg;
    [|discriminate].
  injection Hgen as Hself Hw. subst self'.
  assert (Hq : request_data (set_request_data (request_data self ++ [request])%list self)
               = (request_data self ++ [request])%list) by reflexivity.
  repeat split.
  - exists request. split; [reflexivity | exact Hq].
  - rewrite Hq, length_app. simpl. lia.
  - intros i r Hi. rewrite Hq. rewrite nth_error_app1; [exact Hi|].
    apply nth_error_Some. congruence.
  - intros ops. apply (run_operations_extends ops (_, w')).
Qed.

(** C10: when the data-generator function raises, or it returns and the
    strategy's [construct_request] raises, [generate_request] raises that
    exception and the client, its queue included, is as it was. *)
Theorem generate_request_atomic_on_failure
  (args : CallArgs) (self : EHRClient) (w : World) (exc : exn) :
  (fst (data_generator_func self args (env w)) = Raise exc
   \/ exists data e1,
        data_generator_func self args (env w) = (Ok data, e1)
        /\ fst (construct_request (strategy self) data (workflow self) e1)
           = Raise exc) ->
  exists w',
    generate_request args (self, w) = (Raise exc, (self, w'))
    /\ request_data (fst (snd (generate_request args (self, w))))
       = request_data self.
Proof.
  intros Hraise. rewrite generate_request_run.
  destruct Hraise as [Hf | [data [e1 [Hf Hc]]]].
  - destruct (data_generator_func self args (env w)) as [[data|e] e1];
      simpl in Hf; [discriminate|].
    injection Hf as ->. eexists. split; reflexivity.
  - rewrite Hf.
    destruct (construct_request (strategy self) data (workflow self) e1)
      as [[request|e] e2]; simpl in Hc; [discriminate|].
    injection Hc as ->. eexists. split; reflexivity.
Qed.

(** ** [send_request] *)

Lemma failure_record_handled (e : exn) :
  failure_record e = None <-> handled e = false.
Proof. destruct e; simpl; split; congruence. Qed.

(** One turn of the loop, by the answer to the POST. *)
Lemma send_one_run (url : string) (request : CDSRequest)
  (acc : list Json) (w : World) :
  send_one url request (acc, w) =
  let t := httpx_Timeout 10 None in
  let body := model_dump true request in
  let tr := (trace w ++ [EvPost url body t])%list in
  let e1 := snd (post url body t (env w)) in
  match delivery url (fst (post url body t (env w))) with
  | Ok j => (Ok tt, ((acc ++ [j])%list, mkWorld e1 tr))
  | Raise exc =>
      match failure_record exc with
      | Some msg =>
          (Ok tt, ((acc ++ [empty_mapping])%list,
                   mkWorld e1 (tr ++ [EvLog ERROR msg])%list))
      | None => (Raise exc, (acc, mkWorld e1 tr))
      end
  end.
Proof.
  unfold send_one, try_except, bind, in_world, call, raise_for_status,
    of_result, modify_local, log_error, emit, ret, raise; simpl.
  destruct (post url (model_dump true request) (httpx_Timeout 10 None) (env w))
    as [[response|exc] e1]; simpl.
  - destruct (is_success (status_code response)); simpl.
    + destruct (json response) as [j|exc]; simpl; [reflexivity|].
      destruct exc; reflexivity.
    + reflexivity.
  - destruct exc; reflexivity.
Qed.

(** A classified outcome is recorded and nothing is raised. *)
Lemma delivery_classified (url : string) (o : result Response) :
  classified o = true ->
  (is_failure o = false /\ delivery url o = Ok (recorded o))
  \/ (is_failure o = true /\ recorded o = empty_mapping
      /\ exists exc msg, delivery url o = Raise exc
                         /\ failure_record exc = Some msg).
Proof.
  unfold classified, is_failure, recorded, kind_of, delivery.
  destruct o as [response|exc].
  - destruct (is_success (status_code response)).
    + destruct (json response) as [j|exc]; [auto | discriminate].
    + intros _. right. split; [reflexivity|]. split; [reflexivity|].
      do 2 eexists. split; reflexivity.
  - destruct exc; try discriminate; intros _; right;
      (split; [reflexivity|]); (split; [reflexivity|]);
      do 2 eexists; split; reflexivity.
Qed.

Lemma posted_app (xs ys : list Event) :
  posted (xs ++ ys) = (posted xs ++ posted ys)%list.
Proof. unfold posted. apply flat_map_app. Qed.

Lemma for_each_app {S X} (xs ys : list X) (body : X -> M S unit) (s : S) :
  for_each (xs ++ ys) body s = (for_each xs body ;; for_each ys body) s.
Proof.
  revert s. induction xs as [|x xs IH]; intros s; simpl.
  - reflexivity.
  - unfold bind in *. destruct (body x s) as [[[]|e] s1]; [apply IH | reflexivity].
Qed.

(** The loop on outcomes that are all classified: it ends normally, has
    posted every request in order and has recorded every outcome. *)
Lemma send_loop_classified (url : string) (queue : list CDSRequest) :
  forall (acc : list Json) (w : World),
    forallb classified (post_outcomes url queue (env w)) = true ->
    exists w' evs,
      for_each queue (send_one url) (acc, w)
      = (Ok tt, ((acc ++ map recorded (post_outcomes url queue (env w)))%list, w'))
      /\ env w' = env_after_posts url queue (env w)
      /\ trace w' = (trace w ++ evs)%list
      /\ posted evs = map (wire url) queue.
Proof.
  induction queue as [|request rest IH]; intros acc w Hall; simpl.
  - exists w, []. rewrite !app_nil_r. repeat split.
  - simpl in Hall.
    unfold bind. rewrite send_one_run. cbv zeta.
    destruct (post url (model_dump true request) (httpx_Timeout 10 None) (env w))
      as [o e1] eqn:Hpost; simpl in *.
    apply andb_true_iff in Hall as [Ho Hrest].
    destruct (delivery_classified url o Ho)
      as [[_ Hd] | [_ [Hr [exc [msg [Hd Hm]]]]]]; rewrite Hd; [|rewrite Hm].
    + destruct (IH (acc ++ [recorded o])%list
                  (mkWorld e1 (trace w ++ [EvPost url (model_dump true request)
                                             (httpx_Timeout 10 None)])%list) Hrest)
        as [w' [evs [Hrun [Henv [Htr Hp]]]]].
      exists w', (EvPost url (model_dump true request) (httpx_Timeout 10 None) :: evs).
      rewrite Hrun. simpl in *. rewrite <- app_assoc in *. simpl in *.
      repeat split; auto. now rewrite Hp.
    + destruct (IH (acc ++ [empty_mapping])%list
                  (mkWorld e1 ((trace w ++ [EvPost url (model_dump true request)
                                              (httpx_Timeout 10 None)])
                               ++ [EvLog ERROR msg])%list) Hrest)
        as [w' [evs [Hrun [Henv [Htr Hp]]]]].
      exists w', (EvPost url (model_dump true request) (httpx_Timeout 10 None)
                  :: EvLog ERROR msg :: evs).
      rewrite Hrun, Hr. simpl in *. rewrite <- !app_assoc in *. simpl in *.
      repeat split; auto. now rewrite Hp.
Qed.

(** Whatever the outcomes: the loop never raises an exception its handlers
    catch, and what it has posted is the queue up to some position. *)
Lemma send_loop_any (url : string) (queue : list CDSRequest) :
  forall (acc : list Json) (w : World),
    exists evs k,
      trace (snd (snd (for_each queue (send_one url) (acc, w))))
      = (trace w ++ evs)%list
      /\ posted evs = firstn k (map (wire url) queue)
      /\ match fst (for_each queue (send_one url) (acc, w)) with
         | Ok _ => posted evs = map (wire url) queue
         | Raise e => handled e = false
         end.
Proof.
  induction queue as [|request rest IH]; intros acc w; simpl.
  - exists [], 0%nat. rewrite app_nil_r. repeat split.
  - unfold bind. rewrite send_one_run. cbv zeta.
    set (t := httpx_Timeout 10 None). set (body := model_dump true request).
    destruct (delivery url (fst (post url body t (env w)))) as [j|exc].
    + destruct (IH (acc ++ [j])%list
                  (mkWorld (snd (post url body t (env w)))
                     (trace w ++ [EvPost url body t])%list))
        as [evs [k [Htr [Hp Hres]]]].
      exists (EvPost url body t :: evs), (S k).
      simpl in *. rewrite <- app_assoc in Htr. simpl in Htr.
      repeat split; auto.
      * change (wire url request) with (url, body). now rewrite Hp.
      * destruct (fst (for_each rest (send_one url) _)); auto.
        change (wire url request) with (url, body). now rewrite Hres.
    + destruct (failure_record exc) as [msg|] eqn:Hm.
      * destruct (IH (acc ++ [empty_mapping])%list
                    (mkWorld (snd (post url body t (env w)))
                       ((trace w ++ [EvPost url body t]) ++ [EvLog ERROR msg])%list))
          as [evs [k [Htr [Hp Hres]]]].
        exists (EvPost url body t :: EvLog ERROR msg :: evs), (S k).
        simpl in *.
        repeat split; [rewrite Htr; now rewrite <- !app_assoc | |].
        -- change ((url, body) :: posted evs
                   = (url, body) :: firstn k (map (wire url) rest)).
           now rewrite Hp.
        -- destruct (fst (for_each rest (send_one url) _)); auto.
           change ((url, body) :: posted evs
                   = (url, body) :: map (wire url) rest).
           now rewrite Hres.
      * exists [EvPost url body t], 1%nat. simpl.
        repeat split; auto. now apply failure_record_handled.
Qed.

Lemma send_remaining_run (url : string) (acc : list Json)
  (queue : list CDSRequest) (w : World) :
  send_remaining url acc queue w =
  match for_each queue (send_one url) (acc, w) with
  | (Ok _, (json_responses, w')) => (Ok json_responses, w')
  | (Raise e, (_, w')) => (Raise e, w')
  end.
Proof.
  unfold send_remaining, bind, with_local, ret.
  destruct (for_each queue (send_one url) (acc, w)) as [[[]|e] [l w']]; reflexivity.
Qed.

Lemma send_request_remaining (self : EHRClient) (url : string) :
  send_request self url = send_remaining url [] (request_data self).
Proof. reflexivity. Qed.

Lemma post_outcomes_length (url : string) (queue : list CDSRequest) (e : Env) :
  List.length (post_outcomes url queue e) = List.length queue.
Proof.
  revert e. induction queue as [|request rest IH]; intros e; simpl; auto.
  destruct (post url (model_dump true request) (httpx_Timeout 10 None) e).
  simpl. now rewrite IH.
Qed.

Lemma env_after_posts_app (url : string) (pre rest : list CDSRequest) (e : Env) :
  env_after_posts url (pre ++ rest) e
  = env_after_posts url rest (env_after_posts url pre e).
Proof.
  revert e. induction pre as [|request pre IH]; intros e; simpl; auto.
Qed.

(** C1: for every queue and every assignment of outcomes to its requests
    (success with a JSON body, a status that is not 2xx, a timeout, a
    transport failure), [send_request] returns a list as long as the queue
    whose element at position [i] is the outcome of the request at position
    [i]: the parsed body on success, the empty mapping otherwise. *)
Theorem send_request_one_result_per_request
  (self : EHRClient) (url : string) (w : World) :
  forallb classified (post_outcomes url (request_data self) (env w)) = true ->
  exists json_responses w',
    send_request self url w = (Ok json_responses, w')
    /\ List.length json_responses = List.length (request_data self)
    /\ forall i request,
         nth_error (request_data self) i = Some request ->
         exists o,
           nth_error (post_outcomes url (request_data self) (env w)) i = Some o
           /\ nth_error json_responses i
              = Some (match kind_of o with
                      | Success body => body
                      | _ => empty_mapping
                      end).
Proof.
  intros Hall.
  destruct (send_loop_classified url (request_data self) [] w Hall)
    as [w' [evs [Hrun _]]].
  exists (map recorded (post_outcomes url (request_data self) (env w))), w'.
  split; [|split].
  - rewrite send_request_remaining, send_remaining_run, Hrun. reflexivity.
  - now rewrite length_map, post_outcomes_length.
  - intros i request Hi.
    destruct (nth_error (post_outcomes url (request_data self) (env w)) i)
      as [o|] eqn:Ho.
    + exists o. split; [reflexivity|].
      rewrite nth_error_map, Ho. reflexivity.
    + apply nth_error_None in Ho. rewrite post_outcomes_length in Ho.
      assert (i < List.length (request_data self))%nat
        by (apply nth_error_Some; congruence).
      lia.
Qed.

(** C2: when the requests before a request were all answered with a
    classified outcome and sending that request fails with a status that is
    not 2xx, a timeout or a transport error, the failure is caught and
    logged, the empty mapping is recorded at that request's position and the
    loop goes on with the remaining requests; [send_request] never raises
    one of these failures to its caller, and when the remaining requests
    are answered too it returns one result per request. *)
Theorem send_request_isolates_failures
  (self : EHRClient) (url : string) (w : World)
  (pre : list CDSRequest) (request : CDSRequest) (rest : list CDSRequest) :
  request_data self = (pre ++ request :: rest)%list ->
  forallb classified (post_outcomes url pre (env w)) = true ->
  is_failure (fst (post url (model_dump true request) (httpx_Timeout 10 None)
                     (env_after_posts url pre (env w)))) = true ->
  (exists w1 evs msg,
      trace w1 = (trace w ++ evs ++ [EvLog ERROR msg])%list
      /\ posted evs = map (wire url) (pre ++ [request])
      /\ env w1 = env_after_posts url (pre ++ [request]) (env w)
      /\ send_request self url w
         = send_remaining url
             (map recorded (post_outcomes url pre (env w)) ++ [empty_mapping])
             rest w1)
  /\ (forall e w', send_request self url w = (Raise e, w') -> handled e = false)
  /\ (forallb classified
        (post_outcomes url rest
           (env_after_posts url (pre ++ [request]) (env w))) = true ->
      exists json_responses w',
        send_request self url w = (Ok json_responses, w')
        /\ nth_error json_responses (List.length pre) = Some empty_mapping
        /\ List.length json_responses = List.length (request_data self)).
Proof.
  intros Hq Hpre Hfail.
  set (t := httpx_Timeout 10 None) in *.
  set (body := model_dump true request) in *.
  destruct (send_loop_classified url pre [] w Hpre)
    as [w0 [evs0 [Hrun0 [Henv0 [Htr0 Hp0]]]]].
  simpl in Hrun0.
  assert (Hcl : classified (fst (post url body t (env w0))) = true).
  { rewrite Henv0. unfold is_failure, classified in *.
    destruct (kind_of (fst (post url body t (env_after_posts url pre (env w)))));
      auto; discriminate. }
  rewrite <- Henv0 in Hfail.
  destruct (delivery_classified url _ Hcl)
    as [[Hnf _] | [_ [Hr [exc [msg [Hd Hm]]]]]]; [congruence|].
  set (w1 := mkWorld (snd (post url body t (env w0)))
               ((trace w0 ++ [EvPost url body t]) ++ [EvLog ERROR msg])%list).
  set (acc1 := (map recorded (post_outcomes url pre (env w)) ++ [empty_mapping])%list).
  assert (Hloop : for_each (request_data self) (send_one url) ([], w)
                  = for_each rest (send_one url) (acc1, w1)).
  { rewrite Hq, for_each_app. unfold bind at 1. rewrite Hrun0.
    simpl. unfold bind at 1. rewrite send_one_run. cbv zeta.
    fold t body. rewrite Hd, Hm. reflexivity. }
  assert (Henv1 : env w1 = env_after_posts url (pre ++ [request]) (env w)).
  { rewrite env_after_posts_app. simpl. fold t body. now rewrite <- Henv0. }
  assert (Hsend : send_request self url w = send_remaining url acc1 rest w1).
  { rewrite send_request_remaining, !send_remaining_run, Hloop. reflexivity. }
  split; [|split].
  - exists w1, (evs0 ++ [EvPost url body t])%list, msg.
    repeat split; auto.
    + unfold w1. simpl. rewrite Htr0. now rewrite <- !app_assoc.
    + rewrite posted_app, map_app, Hp0. reflexivity.
  - intros e w' Hraise.
    destruct (send_loop_any url (request_data self) [] w) as [evs [k [_ [_ Hres]]]].
    rewrite send_request_remaining, send_remaining_run in Hraise.
    destruct (for_each (request_data self) (send_one url) ([], w))
      as [[[]|e'] [l w'']]; simpl in *; [discriminate|].
    now injection Hraise as <- _.
  - intros Hrest. rewrite <- Henv1 in Hrest.
    destruct (send_loop_classified url rest acc1 w1 Hrest)
      as [w' [evs [Hrun _]]].
    exists (acc1 ++ map recorded (post_outcomes url rest (env w1)))%list, w'.
    split; [|split].
    + rewrite Hsend, send_remaining_run, Hrun. reflexivity.
    + unfold acc1. rewrite <- app_assoc.
      rewrite nth_error_app2; rewrite length_map, post_outcomes_length; [|lia].
      now rewrite Nat.sub_diag.
    + unfold acc1. rewrite Hq, !length_app, !length_map, !post_outcomes_length.
      simpl. lia.
Qed.


(** ** The [ehr] decorator *)

(** [Workflow(workflow)] raises nothing but its [ValueError]. *)
Lemma Workflow_call_raises (workflow : WorkflowArg) :
  is_Ok (Workflow_call workflow) = false ->
  exists s, workflow = ByValue s
            /\ Workflow_call workflow
               = Raise (ValueError (py_repr s ++ " is not a valid Workflow")).
Proof.
  destruct workflow as [m|s]; simpl; [discriminate|].
  destruct (find _ Workflow_members); simpl; [discriminate|].
  intros _. now exists s.
Qed.

Lemma resolve_workflow_run {S} (workflow : WorkflowArg) (s : S) :
  resolve_workflow workflow s =
  match Workflow_call workflow with
  | Ok m => (Ok m, s)
  | Raise e =>
      (Raise (ValueError (exn_str e ++ ": please select from "
                          ++ py_repr_list (map Workflow_value Workflow_members))),
       s)
  end.
Proof.
  unfold resolve_workflow, try_except, of_result.
  destruct (Workflow_call workflow) as [m|e] eqn:Hc; [reflexivity|].
  destruct (Workflow_call_raises workflow) as [x [_ Hr]];
    [now rewrite Hc|].
  rewrite Hc in Hr. injection Hr as ->. reflexivity.
Qed.

(** The configuration loop, from any index on. *)
Lemma configuration_loop (self : Caller) (wf : Workflow) (names : list string) :
  forall (pre : list string) (w : World),
    data_generator_attributes self = (pre ++ names)%list ->
    for_each (map Z.of_nat (seq (List.length pre) (List.length names)))
      (fun i =>
         let attribute_name := item (data_generator_attributes self) i in
         try_except
           (call (EvSetWorkflow attribute_name wf)
              (set_workflow self attribute_name wf))
           (fun e =>
              log_error ("Could not set workflow " ++ Workflow_value wf
                         ++ " for data generator method " ++ attribute_name
                         ++ ": " ++ exn_str e)) ;;
         if (1 <? i)%Z
         then log_warning "More than one DataGenerator instances found."
         else ret tt) w
    = (Ok tt,
       mkWorld (env_after_configuration self wf names (env w))
         (trace w ++ configuration_trace self wf (List.length pre) names (env w))%list).
Proof.
  induction names as [|name rest IH]; intros pre w Hattrs; simpl.
  - rewrite app_nil_r. destruct w; reflexivity.
  - assert (Hitem : item (data_generator_attributes self)
                      (Z.of_nat (List.length pre)) = name).
    { unfold item. rewrite Nat2Z.id, Hattrs. apply nth_middle. }
    unfold bind at 1. unfold bind at 1. rewrite Hitem.
    unfold try_except, call, log_error, log_warning, emit, ret.
    assert (Hnext : data_generator_attributes self
                    = ((pre ++ [name]) ++ rest)%list)
      by (now rewrite <- app_assoc).
    assert (Hlen : List.length (pre ++ [name]) = S (List.length pre))
      by (rewrite length_app; simpl; lia).
    specialize (IH (pre ++ [name])%list). rewrite Hlen in IH.
    destruct (set_workflow self name wf (env w)) as [[[]|exc] e1]; simpl;
      destruct (1 <? Z.of_nat (List.length pre))%Z; simpl;
      rewrite (IH _ Hnext); simpl; rewrite <- ?app_assoc; reflexivity.
Qed.

Lemma configure_data_generators_run (self : Caller) (wf : Workflow) (w : World) :
  configure_data_generators self wf w
  = (Ok tt,
     mkWorld (env_after_configuration self wf (data_generator_attributes self) (env w))
       (trace w ++ configuration_trace self wf 0
                     (data_generator_attributes self) (env w))%list).
Proof.
  unfold configure_data_generators, range, len. cbv zeta. rewrite Nat2Z.id.
  apply (configuration_loop self wf (data_generator_attributes self) []).
  reflexivity.
Qed.

(** Reading the trace of the configuration loop: one turn is settled by
    whether [set_workflow] raised and whether the index is above 1. *)
Ltac configuration_turn self name wf e i :=
  destruct (set_workflow self name wf e) as [[[]|?exc] ?e1];
  destruct (1 <? Z.of_nat i)%Z; simpl.

Lemma configured_configuration_trace (self : Caller) (wf : Workflow)
  (names : list string) :
  forall (i : nat) (e : Env),
    configured (configuration_trace self wf i names e) = names.
Proof.
  unfold configured.
  induction names as [|name rest IH]; intros i e; simpl; auto.
  configuration_turn self name wf e i; now rewrite IH.
Qed.

Lemma warnings_configuration_trace (self : Caller) (wf : Workflow)
  (names : list string) :
  forall (i : nat) (e : Env),
    List.length (filter is_warning (configuration_trace self wf i names e))
    = (i + List.length names - Nat.max i 2)%nat.
Proof.
  induction names as [|name rest IH]; intros i e; simpl; [lia|].
  destruct (set_workflow self name wf e) as [[[]|exc] e1];
    destruct (Z.ltb_spec 1 (Z.of_nat i)); simpl; rewrite IH; lia.
Qed.

Lemma errors_configuration_trace (self : Caller) (wf : Workflow)
  (names : list string) :
  forall (i : nat) (e : Env),
    List.length (filter is_error_record (configuration_trace self wf i names e))
    = List.length (filter (fun r => negb (is_Ok r))
                     (set_workflow_outcomes self wf names e)).
Proof.
  induction names as [|name rest IH]; intros i e; simpl; auto.
  configuration_turn self name wf e i; now rewrite IH.
Qed.

Lemma error_logged_configuration_trace (self : Caller) (wf : Workflow)
  (names : list string) :
  forall (i : nat) (e : Env) (k : nat) (name : string) (exc : exn),
    nth_error names k = Some name ->
    nth_error (set_workflow_outcomes self wf names e) k = Some (Raise exc) ->
    In (EvLog ERROR (configuration_error wf name exc))
       (configuration_trace self wf i names e).
Proof.
  induction names as [|n rest IH]; intros i e k name exc Hk Ho.
  - destruct k; discriminate.
  - simpl in *. destruct (set_workflow self n wf e) as [r e1].
    right. apply in_or_app.
    destruct k as [|k]; simpl in *.
    + injection Hk as ->. injection Ho as ->. left. now left.
    + right. apply in_or_app. right. eapply IH; eauto.
Qed.

Lemma quiet_configuration_trace (self : Caller) (wf : Workflow)
  (names : list string) :
  forall (i : nat) (e : Env),
    filter is_new_client (configuration_trace self wf i names e) = []
    /\ filter is_generation (configuration_trace self wf i names e) = [].
Proof.
  induction names as [|name rest IH]; intros i e; simpl; auto.
  configuration_turn self name wf e i; apply IH.
Qed.

(** The generation loop of the wrapper. *)
Lemma generate_request_step (args : CallArgs) (self : EHRClient) (w : World) :
  exists evs,
    generate_request args (self, w)
    = (let w' := mkWorld (snd (generation self args (env w)))
                   (trace w ++ evs)%list in
       match fst (generation self args (env w)) with
       | Ok request =>
           (Ok tt, (set_request_data (request_data self ++ [request])%list self, w'))
       | Raise e => (Raise e, (self, w'))
       end)
    /\ List.length (filter is_generator_call evs) = 1%nat
    /\ filter is_new_client evs = [].
Proof.
  rewrite generate_request_run. unfold generation.
  destruct (data_generator_func self args (env w)) as [[data|e] e1]; simpl.
  - exists [EvDataGenerator args; EvConstructRequest data (workflow self)].
    rewrite <- app_assoc.
    destruct (construct_request (strategy self) data (workflow self) e1)
      as [[request|e] e2]; simpl; auto.
  - exists [EvDataGenerator args]. auto.
Qed.

Lemma generations_set_request_data (n : nat) (q : list CDSRequest)
  (self : EHRClient) (args : CallArgs) (e : Env) :
  generations n (set_request_data q self) args e = generations n self args e.
Proof.
  revert e. induction n as [|n IH]; intros e; simpl; auto.
  change (generation (set_request_data q self) args e)
    with (generation self args e).
  destruct (generation self args e) as [r e1]. now rewrite IH.
Qed.

Lemma generate_loop_success {X} (args : CallArgs) (xs : list X) :
  forall (self : EHRClient) (w : World),
    forallb is_Ok (generations (List.length xs) self args (env w)) = true ->
    exists q w' evs,
      for_each xs (fun _ => generate_request args) (self, w)
      = (Ok tt, (set_request_data (request_data self ++ q)%list self, w'))
      /\ map Ok q = generations (List.length xs) self args (env w)
      /\ trace w' = (trace w ++ evs)%list
      /\ List.length (filter is_generator_call evs) = List.length xs
      /\ filter is_new_client evs = [].
Proof.
  induction xs as [|x xs IH]; intros self w Hall; simpl in *.
  - exists [], w, []. rewrite !app_nil_r. destruct self; auto.
  - unfold bind.
    destruct (generate_request_step args self w) as [evs [Hrun [Hcount Hnew]]].
    rewrite Hrun. cbv zeta.
    destruct (generation self args (env w)) as [[request|e] e1];
      simpl in *; [|discriminate].
    set (self1 := set_request_data (request_data self ++ [request])%list self).
    set (w1 := mkWorld e1 (trace w ++ evs)%list).
    rewrite <- (generations_set_request_data _ (request_data self ++ [request])%list)
      in Hall.
    destruct (IH self1 w1 Hall) as [q [w' [evs' [Hloop [Hq [Htr [Hc Hn]]]]]]].
    exists (request :: q), w', (evs ++ evs')%list.
    rewrite Hloop. unfold self1 in *. simpl in *.
    rewrite generations_set_request_data in Hq.
    rewrite <- !app_assoc in *. simpl.
    rewrite !filter_app, length_app, Hcount, Hc, Hnew, Hn, Hq, Htr.
    repeat split; auto.
Qed.

Lemma generate_loop_failure {X} (args : CallArgs) (xs : list X) :
  forall (self : EHRClient) (w : World) (k : nat) (exc : exn),
    nth_error (generations (List.length xs) self args (env w)) k
    = Some (Raise exc) ->
    forallb is_Ok (firstn k (generations (List.length xs) self args (env w)))
    = true ->
    exists s' evs,
      for_each xs (fun _ => generate_request args) (self, w) = (Raise exc, s')
      /\ trace (snd s') = (trace w ++ evs)%list
      /\ List.length (filter is_generator_call evs) = S k
      /\ filter is_new_client evs = [].
Proof.
  induction xs as [|x xs IH]; intros self w k exc Hk Hbefore; simpl in *.
  - destruct k; discriminate.
  - unfold bind.
    destruct (generate_request_step args self w) as [evs [Hrun [Hcount Hnew]]].
    rewrite Hrun. cbv zeta.
    destruct (generation self args (env w)) as [r e1]. simpl in *.
    destruct k as [|k]; simpl in *.
    + injection Hk as ->. do 2 eexists. split; [reflexivity|]. simpl. auto.
    + destruct r as [request|e]; simpl in *; [|discriminate].
      rewrite <- (generations_set_request_data _ (request_data self ++ [request])%list)
        in Hk, Hbefore.
      destruct (IH _ (mkWorld e1 (trace w ++ evs)%list) k exc Hk Hbefore)
        as [s' [evs' [Hloop [Htr [Hc Hn]]]]].
      exists s', (evs ++ evs')%list. rewrite Hloop. simpl in Htr.
      rewrite <- app_assoc in Htr.
      rewrite !filter_app, length_app, Hcount, Hc, Hnew, Hn.
      repeat split; auto.
Qed.

Lemma generate_loop_trace {X} (args : CallArgs) (xs : list X) :
  forall (s : EHRClient * World),
    exists evs,
      trace (snd (snd (for_each xs (fun _ => generate_request args) s)))
      = (trace (snd s) ++ evs)%list.
Proof.
  induction xs as [|x xs IH]; intros [self w]; simpl.
  - exists []. now rewrite app_nil_r.
  - unfold bind.
    destruct (generate_request_step args self w) as [evs [Hrun _]].
    rewrite Hrun. cbv zeta.
    destruct (fst (generation self args (env w))) as [request|e].
    + destruct (IH (set_request_data (request_data self ++ [request])%list self,
                    mkWorld (snd (generation self args (env w)))
                      (trace w ++ evs)%list)) as [evs' Htr].
      exists (evs ++ evs')%list. rewrite Htr. simpl. now rewrite app_assoc.
    + now exists evs.
Qed.

Lemma range_length (n : nat) : List.length (range (Z.of_nat n)) = n.
Proof. unfold range. now rewrite length_map, length_seq, Nat2Z.id. Qed.

(** The wrapper, once the caller and the workflow identifier are accepted. *)
Lemma wrapper_run (func : CallArgs -> Env -> result Data * Env)
  (workflow : WorkflowArg) (num : Z) (self : Caller) (args : Args)
  (w : World) (wf : Workflow) :
  is_use_case self = true ->
  Workflow_call workflow = Ok wf ->
  wrapper func workflow num self args w =
  let w1 := snd (configure_data_generators self wf w) in
  match in_UseCaseType (type_ self) with
  | Ok true =>
      match for_each (range num) (fun _ => generate_request (self, args))
              (mkEHRClient func wf (strategy_ self) [],
               mkWorld (env w1) (trace w1 ++ [EvNewClient])%list) with
      | (Ok _, (method, w')) => (Ok method, w')
      | (Raise e, (_, w')) => (Raise e, w')
      end
  | Ok false =>
      (Raise (NotImplementedError
                ("Use case " ++ TypeAttr_str (type_ self)
                 ++ " not recognised, check if implemented.")), w1)
  | Raise e => (Raise e, w1)
  end.
Proof.
  intros Huc Hwf. unfold wrapper. rewrite Huc.
  unfold bind at 1. unfold ret at 1.
  unfold bind at 1. rewrite resolve_workflow_run, Hwf.
  unfold bind at 1. rewrite configure_data_generators_run. cbv zeta. simpl snd.
  unfold bind at 1. unfold of_result at 1.
  destruct (in_UseCaseType (type_ self)) as [[|]|e]; try reflexivity.
  unfold bind, EHRClient_init, emit, ret, with_local. simpl.
  destruct (for_each (range num) _ _) as [[[]|e] [method w']]; reflexivity.
Qed.

(** C9: the configuration loop of the decorator never raises and calls
    [set_workflow] on every data-generator attribute of the caller, in
    order, whatever the calls before it did; for each call that raises, the
    error is caught and a record naming the attribute is logged: as many
    records as calls that raised. The decorated function, called on a use
    case with a workflow identifier that resolves, starts with this loop. *)
Theorem ehr_configures_every_data_generator
  (self : Caller) (wf : Workflow) (w : World) :
  exists w' evs,
    configure_data_generators self wf w = (Ok tt, w')
    /\ trace w' = (trace w ++ evs)%list
    /\ configured evs = data_generator_attributes self
    /\ (forall k name exc,
          nth_error (data_generator_attributes self) k = Some name ->
          nth_error (set_workflow_outcomes self wf
                       (data_generator_attributes self) (env w)) k
          = Some (Raise exc) ->
          In (EvLog ERROR
                ("Could not set workflow " ++ Workflow_value wf
                 ++ " for data generator method " ++ name
                 ++ ": " ++ exn_str exc)) evs)
    /\ List.length (filter is_error_record evs)
       = List.length (filter (fun r => negb (is_Ok r))
                        (set_workflow_outcomes self wf
                           (data_generator_attributes self) (env w)))
    /\ (forall func workflow num args,
          is_use_case self = true ->
          Workflow_call workflow = Ok wf ->
          exists later,
            trace (snd (ehr func workflow num self args w))
            = (trace w ++ evs ++ later)%list).
Proof.
  exists (snd (configure_data_generators self wf w)),
    (configuration_trace self wf 0 (data_generator_attributes self) (env w)).
  split; [now rewrite configure_data_generators_run|].
  split; [now rewrite configure_data_generators_run|].
  split; [apply configured_configuration_trace|].
  split; [|split; [apply errors_configuration_trace|]].
  - intros k name exc Hk Ho.
    exact (error_logged_configuration_trace self wf _ 0%nat (env w) k name exc Hk Ho).
  - intros func workflow num args Huc Hwf. unfold ehr.
    rewrite (wrapper_run func workflow num self args w wf Huc Hwf). cbv zeta.
    rewrite configure_data_generators_run. simpl snd. simpl env.
    destruct (in_UseCaseType (type_ self)) as [[|]|exc].
    + match goal with
      | |- context [for_each ?xs ?b ?s] =>
          destruct (generate_loop_trace (self, args) xs s) as [later Htr];
          destruct (for_each xs b s) as [[[]|e] [method w']]
      end; simpl in *; exists (EvNewClient :: later); rewrite Htr;
        now rewrite <- !app_assoc.
    + exists []. simpl. now rewrite app_nil_r.
    + exists []. simpl. now rewrite app_nil_r.
Qed.

(** The warning of the configuration loop is logged for the attributes from
    the third on: with [n] attributes, [n - 2] times. *)
Lemma ehr_warns_from_third_data_generator
  (self : Caller) (wf : Workflow) (w : World) :
  exists w' evs,
    configure_data_generators self wf w = (Ok tt, w')
    /\ trace w' = (trace w ++ evs)%list
    /\ List.length (filter is_warning evs)
       = (List.length (data_generator_attributes self) - 2)%nat.
Proof.
  rewrite configure_data_generators_run.
  do 2 eexists. split; [reflexivity|]. split; [reflexivity|].
  rewrite warnings_configuration_trace. lia.
Qed.

Lemma generations_length (n : nat) (self : EHRClient) (args : CallArgs) (e : Env) :
  List.length (generations n self args e) = n.
Proof.
  revert e. induction n as [|n IH]; intros e; simpl; auto.
  destruct (generation self args e). simpl. now rewrite IH.
Qed.

(** C3: on a use case of a known category, with a workflow identifier that
    resolves and a repeat count [num] (a number of requests, so not
    negative): when no generation raises, the decorated function returns a
    client whose queue has exactly [num] requests, those the generations
    gave, in order; when the generation at position [k] is the first that
    raises, that exception is what the decorated function raises, and the
    data generator was called [k + 1] times and not again. *)
Theorem ehr_queue_length
  (func : CallArgs -> Env -> result Data * Env) (workflow : WorkflowArg)
  (num : Z) (self : Caller) (args : Args) (w : World) (wf : Workflow) :
  is_use_case self = true ->
  in_UseCaseType (type_ self) = Ok true ->
  Workflow_call workflow = Ok wf ->
  (0 <= num)%Z ->
  let w1 := snd (configure_data_generators self wf w) in
  let outcomes :=
    generations (Z.to_nat num) (mkEHRClient func wf (strategy_ self) [])
      (self, args) (env w1) in
  (forallb is_Ok outcomes = true ->
   exists method w' evs,
     ehr func workflow num self args w = (Ok method, w')
     /\ len (request_data method) = num
     /\ map Ok (request_data method) = outcomes
     /\ trace w' = (trace w1 ++ EvNewClient :: evs)%list
     /\ List.length (filter is_generator_call evs) = Z.to_nat num)
  /\ (forall k exc,
        nth_error outcomes k = Some (Raise exc) ->
        forallb is_Ok (firstn k outcomes) = true ->
        exists w' evs,
          ehr func workflow num self args w = (Raise exc, w')
          /\ trace w' = (trace w1 ++ EvNewClient :: evs)%list
          /\ List.length (filter is_generator_call evs) = S k).
Proof.
  intros Huc Htype Hwf Hnum w1 outcomes. unfold ehr.
  rewrite (wrapper_run func workflow num self args w wf Huc Hwf). cbv zeta.
  rewrite Htype. fold w1.
  assert (Hlen : List.length (range num) = Z.to_nat num)
    by (unfold range; now rewrite length_map, length_seq).
  unfold outcomes. rewrite <- Hlen.
  set (method0 := mkEHRClient func wf (strategy_ self) []).
  set (w2 := mkWorld (env w1) (trace w1 ++ [EvNewClient])%list).
  change (env w1) with (env w2).
  split.
  - intros Hall.
    destruct (generate_loop_success (self, args) (range num) method0 w2 Hall)
      as [q [w' [evs [Hloop [Hq [Htr [Hc _]]]]]]].
    rewrite Hloop. simpl in *.
    exists (set_request_data q method0), w', evs.
    repeat split; auto.
    + unfold len. simpl.
      assert (List.length q = Z.to_nat num).
      { rewrite <- Hlen, <- (generations_length (List.length (range num))
                              method0 (self, args) (env w1)), <- Hq.
        now rewrite length_map. }
      lia.
    + rewrite Htr. now rewrite <- app_assoc.
  - intros k exc Hk Hbefore.
    destruct (generate_loop_failure (self, args) (range num) method0 w2 k exc
                Hk Hbefore) as [[method' w'] [evs [Hloop [Htr [Hc _]]]]].
    rewrite Hloop. simpl in *.
    exists w', evs. repeat split; auto.
    rewrite Htr. now rewrite <- app_assoc.
Qed.

(** Strings *)
Lemma string_app_assoc (a b c : string) : (a ++ b) ++ c = a ++ b ++ c.
Proof. induction a as [|ch a IH]; simpl; [reflexivity | now rewrite IH]. Qed.

Lemma string_app_nil_r (a : string) : a ++ "" = a.
Proof. induction a as [|ch a IH]; simpl; [reflexivity | now rewrite IH]. Qed.

Lemma occurs_in_refl (x : string) : occurs_in x x.
Proof. exists "", "". simpl. now rewrite string_app_nil_r. Qed.

Lemma occurs_in_app_l (x a b : string) : occurs_in x a -> occurs_in x (a ++ b).
Proof.
  intros [pre [post ->]]. exists pre, (post ++ b).
  now rewrite !string_app_assoc.
Qed.

Lemma occurs_in_app_r (x a b : string) : occurs_in x b -> occurs_in x (a ++ b).
Proof.
  intros [pre [post ->]]. exists (a ++ pre), post.
  now rewrite !string_app_assoc.
Qed.

Lemma occurs_in_concat (sep x : string) (l : list string) :
  In x l -> occurs_in x (String.concat sep l).
Proof.
  induction l as [|y l IH]; intros Hin; [destruct Hin|].
  destruct l as [|z l].
  - destruct Hin as [->|[]]. apply occurs_in_refl.
  - change (String.concat sep (y :: z :: l))
      with (y ++ sep ++ String.concat sep (z :: l)).
    destruct Hin as [->|Hin].
    + apply occurs_in_app_l, occurs_in_refl.
    + now apply occurs_in_app_r, occurs_in_app_r, IH.
Qed.

Lemma occurs_in_py_repr_list (x : string) (l : list string) :
  In x l -> occurs_in (py_repr x) (py_repr_list l).
Proof.
  intros Hin. unfold py_repr_list.
  apply occurs_in_app_r, occurs_in_app_l, occurs_in_concat.
  now apply in_map.
Qed.

(** The assertion comes first: on an object that is not a use case nothing
    else is looked at. *)
Lemma ehr_asserts_use_case
  (func : CallArgs -> Env -> result Data * Env) (workflow : WorkflowArg)
  (num : Z) (self : Caller) (args : Args) (w : World) :
  is_use_case self = false ->
  ehr func workflow num self args w
  = (Raise (AssertionError
              (class_name self
               ++ " must be subclass of valid Use Case strategy!")), w).
Proof. intros Huc. unfold ehr, wrapper. rewrite Huc. reflexivity. Qed.

(** C5, amended: for every workflow identifier that does not map to a
    member of [Workflow], the decorated function called on a use case raises
    a [ValueError] whose message lists the value of every member, and it
    does so with the world as it was: no data generator was configured, no
    client was created and no request was generated. *)
Theorem ehr_rejects_unknown_workflow
  (func : CallArgs -> Env -> result Data * Env) (workflow : WorkflowArg)
  (num : Z) (self : Caller) (args : Args) (w : World) :
  is_use_case self = true ->
  is_Ok (Workflow_call workflow) = false ->
  exists s msg,
    workflow = ByValue s
    /\ msg = py_repr s ++ " is not a valid Workflow" ++ ": please select from "
             ++ py_repr_list (map Workflow_value Workflow_members)
    /\ ehr func workflow num self args w = (Raise (ValueError msg), w)
    /\ forall m, In m Workflow_members ->
                 occurs_in (py_repr (Workflow_value m)) msg.
Proof.
  intros Huc Hbad.
  destruct (Workflow_call_raises workflow Hbad) as [s [Hs Hcall]].
  exists s. eexists. split; [exact Hs|]. split; [reflexivity|]. split.
  - unfold ehr, wrapper. rewrite Huc.
    unfold bind at 1. unfold ret at 1.
    unfold bind at 1. rewrite resolve_workflow_run, Hcall. simpl.
    now rewrite !string_app_assoc.
  - intros m Hm.
    apply occurs_in_app_r, occurs_in_app_r, occurs_in_app_r.
    apply occurs_in_py_repr_list. now apply in_map.
Qed.

(** When the membership test on the caller's type itself raises (a type
    that is not a member of any [Enum], up to Python 3.11), that exception
    is what the decorated function raises, after the configuration of the
    data generators. *)
Lemma ehr_type_test_raises
  (func : CallArgs -> Env -> result Data * Env) (workflow : WorkflowArg)
  (num : Z) (self : Caller) (args : Args) (w : World) (wf : Workflow)
  (exc : exn) :
  is_use_case self = true ->
  Workflow_call workflow = Ok wf ->
  in_UseCaseType (type_ self) = Raise exc ->
  ehr func workflow num self args w
  = (Raise exc, snd (configure_data_generators self wf w)).
Proof.
  intros Huc Hwf Htype. unfold ehr.
  rewrite (wrapper_run func workflow num self args w wf Huc Hwf). cbv zeta.
  now rewrite Htype.
Qed.

(** C8, amended: when the caller is a use case and the workflow identifier
    resolves, and the test [self.type in UseCaseType] says that the
    caller's type is not a use-case category, the decorated function raises
    [NotImplementedError]; by then the data generators of the caller were
    configured, and nothing else was done: no client was created and no
    request was generated. *)
Theorem ehr_rejects_unknown_use_case_type
  (func : CallArgs -> Env -> result Data * Env) (workflow : WorkflowArg)
  (num : Z) (self : Caller) (args : Args) (w : World) (wf : Workflow) :
  is_use_case self = true ->
  Workflow_call workflow = Ok wf ->
  in_UseCaseType (type_ self) = Ok false ->
  exists w' evs,
    ehr func workflow num self args w
    = (Raise (NotImplementedError
                ("Use case " ++ TypeAttr_str (type_ self)
                 ++ " not recognised, check if implemented.")), w')
    /\ configure_data_generators self wf w = (Ok tt, w')
    /\ trace w' = (trace w ++ evs)%list
    /\ filter is_new_client evs = []
    /\ filter is_generation evs = [].
Proof.
  intros Huc Hwf Htype. unfold ehr.
  rewrite (wrapper_run func workflow num self args w wf Huc Hwf). cbv zeta.
  rewrite Htype, configure_data_generators_run. simpl snd.
  do 2 eexists. split; [reflexivity|]. split; [reflexivity|].
  split; [reflexivity|]. apply quiet_configuration_trace.
Qed.

End Properties.

(** * Further properties of the client and of the decorator *)

Section Delivery.
Context `{Setting}.

(** The loop over a first part of the queue whose outcomes are all
    classified leaves the rest of the queue to do. *)
Lemma send_loop_prefix (url : string) (pre tail : list CDSRequest)
  (acc : list Json) (w : World) :
  forallb classified (post_outcomes url pre (env w)) = true ->
  exists w0 evs0,
    for_each (pre ++ tail) (send_one url) (acc, w)
    = for_each tail (send_one url)
        ((acc ++ map recorded (post_outcomes url pre (env w)))%list, w0)
    /\ env w0 = env_after_posts url pre (env w)
    /\ trace w0 = (trace w ++ evs0)%list
    /\ posted evs0 = map (wire url) pre.
Proof.
  intros Hpre.
  destruct (send_loop_classified url pre acc w Hpre)
    as [w0 [evs0 [Hrun [Henv [Htr Hp]]]]].
  exists w0, evs0. rewrite for_each_app. unfold bind at 1. rewrite Hrun. auto.
Qed.

(** Every event of the loop is a POST to [url] with the source's timeouts
    or an error record. *)
Lemma send_loop_events (url : string) (queue : list CDSRequest) :
  forall (acc : list Json) (w : World),
    exists evs,
      trace (snd (snd (for_each queue (send_one url) (acc, w))))
      = (trace w ++ evs)%list
      /\ Forall (send_event url) evs.
Proof.
  induction queue as [|request rest IH]; intros acc w; simpl.
  - exists []. now rewrite app_nil_r.
  - unfold bind. rewrite send_one_run. cbv zeta.
    set (t := httpx_Timeout 10 None). set (body := model_dump true request).
    assert (Hpost : send_event url (EvPost url body t)) by (split; reflexivity).
    destruct (delivery url (fst (post url body t (env w)))) as [j|exc].
    + destruct (IH (acc ++ [j])%list
                  (mkWorld (snd (post url body t (env w)))
                     (trace w ++ [EvPost url body t])%list)) as [evs [Htr Hall]].
      exists (EvPost url body t :: evs). rewrite Htr. simpl.
      rewrite <- app_assoc. auto.
    + destruct (failure_record exc) as [msg|].
      * destruct (IH (acc ++ [empty_mapping])%list
                    (mkWorld (snd (post url body t (env w)))
                       ((trace w ++ [EvPost url body t]) ++ [EvLog ERROR msg])%list))
          as [evs [Htr Hall]].
        exists (EvPost url body t :: EvLog ERROR msg :: evs). rewrite Htr. simpl.
        rewrite <- !app_assoc. split; [reflexivity|].
        constructor; [exact Hpost|]. constructor; [exact I | exact Hall].
      * exists [EvPost url body t]. simpl. auto.
Qed.

(** The loop on classified outcomes, with its error records counted. *)
Lemma send_loop_error_records (url : string) (queue : list CDSRequest) :
  forall (acc : list Json) (w : World),
    forallb classified (post_outcomes url queue (env w)) = true ->
    exists evs,
      trace (snd (snd (for_each queue (send_one url) (acc, w))))
      = (trace w ++ evs)%list
      /\ List.length (filter is_error_record evs)
         = List.length (filter is_failure (post_outcomes url queue (env w))).
Proof.
  induction queue as [|request rest IH]; intros acc w Hall; simpl.
  - exists []. now rewrite app_nil_r.
  - simpl in Hall. unfold bind. rewrite send_one_run. cbv zeta.
    set (t := httpx_Timeout 10 None) in *.
    set (body := model_dump true request) in *.
    destruct (post url body t (env w)) as [o e1] eqn:Hpost; simpl in *.
    apply andb_true_iff in Hall as [Ho Hrest].
    destruct (delivery_classified url o Ho)
      as [[Hnf Hd] | [Hf [_ [exc [msg [Hd Hm]]]]]]; rewrite Hd; [|rewrite Hm].
    + destruct (IH (acc ++ [recorded o])%list
                  (mkWorld e1 (trace w ++ [EvPost url body t])%list) Hrest)
        as [evs [Htr Hc]].
      exists (EvPost url body t :: evs). rewrite Htr. simpl in *.
      rewrite <- app_assoc, Hnf. auto.
    + destruct (IH (acc ++ [empty_mapping])%list
                  (mkWorld e1 ((trace w ++ [EvPost url body t])
                               ++ [EvLog ERROR msg])%list) Hrest)
        as [evs [Htr Hc]].
      exists (EvPost url body t :: EvLog ERROR msg :: evs). rewrite Htr. simpl in *.
      rewrite <- !app_assoc, Hf. simpl. auto.
Qed.




(** X1: an exception that is none of the three the handlers catch ends the
    batch. When the requests before a request were answered with classified
    outcomes and, for that request, the POST raises such an exception or the
    2xx response's body does not parse and [response.json()] raises it,
    [send_request] raises that exception: the results gathered so far are
    not returned, and the requests after it are never posted. *)
Theorem send_request_aborts_on_unhandled
  (self : EHRClient) (url : string) (w : World)
  (pre : list CDSRequest) (request : CDSRequest) (rest : list CDSRequest)
  (exc : exn) :
  request_data self = (pre ++ request :: rest)%list ->
  forallb classified (post_outcomes url pre (env w)) = true ->
  handled exc = false ->
  (fst (post url (model_dump true request) (httpx_Timeout 10 None)
          (env_after_posts url pre (env w))) = Raise exc
   \/ exists response,
        fst (post url (model_dump true request) (httpx_Timeout 10 None)
               (env_after_posts url pre (env w))) = Ok response
        /\ is_success (status_code response) = true
        /\ json response = Raise exc) ->
  exists w' evs,
    send_request self url w = (Raise exc, w')
    /\ trace w' = (trace w ++ evs)%list
    /\ posted evs = map (wire url) (pre ++ [request])
    /\ env w' = env_after_posts url (pre ++ [request]) (env w).
Proof.
  intros Hq Hpre Hexc Hraise.
  set (t := httpx_Timeout 10 None) in *.
  set (body := model_dump true request) in *.
  destruct (send_loop_prefix url pre (request :: rest) [] w Hpre)
    as [w0 [evs0 [Hrun [Henv [Htr Hp]]]]].
  rewrite <- Henv in Hraise.
  assert (Hd : delivery url (fst (post url body t (env w0))) = Raise exc).
  { destruct Hraise as [Hr | [response [Hr [Hs Hj]]]]; rewrite Hr; simpl.
    - reflexivity.
    - now rewrite Hs. }
  exists (mkWorld (snd (post url body t (env w0)))
            (trace w0 ++ [EvPost url body t])%list),
    (evs0 ++ [EvPost url body t])%list.
  split; [|split; [|split]].
  - rewrite send_request_remaining, send_remaining_run, Hq, Hrun.
    simpl. unfold bind at 1. rewrite send_one_run. cbv zeta.
    fold t body. rewrite Hd.
    apply failure_record_handled in Hexc. rewrite Hexc. reflexivity.
  - simpl. rewrite Htr. now rewrite <- app_assoc.
  - rewrite posted_app, map_app, Hp. reflexivity.
  - rewrite env_after_posts_app. simpl. fold t body. now rewrite <- Henv.
Qed.

(** X2: [send_request] does not retry and logs once per failure. When every
    outcome is classified it returns after exactly one POST per request, in
    queue order, and the error records it logged are as many as the requests
    that failed; the network is left as after these POSTs. *)
Theorem send_request_no_retry
  (self : EHRClient) (url : string) (w : World) :
  forallb classified (post_outcomes url (request_data self) (env w)) = true ->
  exists json_responses w' evs,
    send_request self url w = (Ok json_responses, w')
    /\ trace w' = (trace w ++ evs)%list
    /\ posted evs = map (wire url) (request_data self)
    /\ List.length (filter is_error_record evs)
       = List.length (filter is_failure
                        (post_outcomes url (request_data self) (env w)))
    /\ env w' = env_after_posts url (request_data self) (env w).
Proof.
  intros Hall.
  destruct (send_loop_classified url (request_data self) [] w Hall)
    as [w' [evs [Hrun [Henv [Htr Hp]]]]].
  destruct (send_loop_error_records url (request_data self) [] w Hall)
    as [evs' [Htr' Hc]].
  rewrite Hrun in Htr'. simpl in Htr'. rewrite Htr in Htr'.
  apply app_inv_head in Htr'. subst evs'.
  exists (map recorded (post_outcomes url (request_data self) (env w))), w', evs.
  rewrite send_request_remaining, send_remaining_run, Hrun. auto.
Qed.

(** X3: whatever the network answers and whether [send_request] returns or
    raises, all it does to the outside is POST to the URL it was given, each
    time with [Timeout(10.0, read=None)], and log error records: it logs no
    warning, calls neither the data generator nor the strategy, and makes no
    more POSTs than there are requests in the queue. *)
Theorem send_request_only_posts_and_logs
  (self : EHRClient) (url : string) (w : World) :
  exists evs,
    trace (snd (send_request self url w)) = (trace w ++ evs)%list
    /\ Forall (send_event url) evs
    /\ filter is_warning evs = []
    /\ filter is_generation evs = []
    /\ (List.length (posted evs) <= List.length (request_data self))%nat.
Proof.
  destruct (send_loop_events url (request_data self) [] w) as [evs [Htr Hall]].
  destruct (send_loop_any url (request_data self) [] w) as [evs' [k [Htr' [Hp _]]]].
  rewrite Htr in Htr'. apply app_inv_head in Htr'. subst evs'.
  exists evs. split; [|split; [exact Hall|]].
  - rewrite send_request_remaining, send_remaining_run.
    destruct (for_each (request_data self) (send_one url) ([], w))
      as [[[]|e] [l w']]; exact Htr.
  - split; [|split].
    + clear Htr Hp. induction Hall as [|ev evs Hev _ IH]; simpl; auto.
      destruct ev as [| | | | |[] msg]; simpl in *; tauto.
    + clear Htr Hp. induction Hall as [|ev evs Hev _ IH]; simpl; auto.
      destruct ev as [| | | | |[] msg]; simpl in *; tauto.
    + rewrite Hp, length_firstn, length_map. lia.
Qed.

(** X4: a non-2xx response is logged, whatever happens to the requests
    after it, with a record that holds its status code and the [repr] of
    the URL of its request, which is the URL httpx parsed from the one
    [send_request] was given. *)
Theorem send_request_logs_status_and_url
  (self : EHRClient) (url : string) (w : World)
  (pre : list CDSRequest) (request : CDSRequest) (rest : list CDSRequest)
  (response : Response) :
  request_data self = (pre ++ request :: rest)%list ->
  forallb classified (post_outcomes url pre (env w)) = true ->
  fst (post url (model_dump true request) (httpx_Timeout 10 None)
         (env_after_posts url pre (env w))) = Ok response ->
  is_success (status_code response) = false ->
  exists evs,
    trace (snd (send_request self url w)) = (trace w ++ evs)%list
    /\ In (EvLog ERROR ("Error response " ++ str_of_Z (status_code response)
                        ++ " while requesting " ++ url_repr url ++ "."))
          evs.
Proof.
  intros Hq Hpre Hresp Hstatus.
  set (t := httpx_Timeout 10 None) in *.
  set (body := model_dump true request) in *.
  destruct (send_loop_prefix url pre (request :: rest) [] w Hpre)
    as [w0 [evs0 [Hrun [Henv [Htr Hp]]]]].
  rewrite <- Henv in Hresp.
  set (msg := "Error response " ++ str_of_Z (status_code response)
              ++ " while requesting " ++ url_repr url ++ ".").
  set (acc1 := (([] ++ map recorded (post_outcomes url pre (env w)))
                ++ [empty_mapping])%list).
  set (w1 := mkWorld (snd (post url body t (env w0)))
               ((trace w0 ++ [EvPost url body t]) ++ [EvLog ERROR msg])%list).
  assert (Hloop : for_each (request_data self) (send_one url) ([], w)
                  = for_each rest (send_one url) (acc1, w1)).
  { rewrite Hq, Hrun. simpl. unfold bind at 1. rewrite send_one_run. cbv zeta.
    fold t body. rewrite Hresp. simpl. rewrite Hstatus. simpl. reflexivity. }
  destruct (send_loop_any url rest acc1 w1) as [evs [k [Htr1 _]]].
  exists (evs0 ++ [EvPost url body t; EvLog ERROR msg] ++ evs)%list.
  split.
  - rewrite send_request_remaining, send_remaining_run, Hloop.
    assert (Hfinal : trace (snd (snd (for_each rest (send_one url) (acc1, w1))))
                     = (trace w ++ evs0 ++ [EvPost url body t; EvLog ERROR msg]
                        ++ evs)%list).
    { rewrite Htr1. unfold w1. simpl. rewrite Htr.
      now rewrite <- !app_assoc. }
    destruct (for_each rest (send_one url) (acc1, w1))
      as [[[]|e] [l w']]; exact Hfinal.
  - apply in_or_app. right. simpl. auto.
Qed.

(** X5: [send_request] does not consume the queue. After any sequence of
    operations on a client, a [send_request] that returns has posted the
    whole queue as it then is: the queue the client started with, followed
    by what was generated since, whether or not these requests were posted
    before. A sequence of [send_request] calls alone, failed ones included,
    leaves the client as it was. *)
Theorem send_request_keeps_the_queue
  (ops : list Operation) (self : EHRClient) (w : World) (url : string) :
  is_Ok (fst (send_request (fst (run_operations ops (self, w))) url
                (snd (run_operations ops (self, w))))) = true ->
  (exists added evs,
      request_data (fst (run_operations ops (self, w)))
      = (request_data self ++ added)%list
      /\ trace (snd (send_request (fst (run_operations ops (self, w))) url
                       (snd (run_operations ops (self, w)))))
         = (trace (snd (run_operations ops (self, w))) ++ evs)%list
      /\ posted evs = map (wire url) (request_data self ++ added))
  /\ (forallb is_send ops = true -> fst (run_operations ops (self, w)) = self).
Proof.
  intros Hok. split.
  - destruct (run_operations_extends ops (self, w)) as [added Hadded].
    simpl in Hadded.
    destruct (run_operations ops (self, w)) as [self' w'] eqn:Hs. simpl in *.
    destruct (send_loop_any url (request_data self') [] w')
      as [evs [k [Htr [_ Hres]]]].
    exists added, evs.
    rewrite send_request_remaining, send_remaining_run in *.
    destruct (for_each (request_data self') (send_one url) ([], w'))
      as [[[]|e] [l w'']]; simpl in *; [|discriminate].
    rewrite <- Hadded. auto.
  - clear Hok. revert self w.
    induction ops as [|op ops IH]; intros self w Hsend; simpl in *; auto.
    apply andb_true_iff in Hsend as [Hop Hrest].
    destruct op as [args|u]; [discriminate|]. simpl.
    unfold bind, get_local, in_world. simpl.
    destruct (send_request self u w) as [[r|e] w1]; simpl; now apply IH.
Qed.

End Delivery.

Section Decoration.
Context `{Setting}.

(** A generation loop that ends normally has appended one request per
    turn and has left the rest of the client alone. *)
Lemma generate_loop_ok {X} (args : CallArgs) (xs : list X) :
  forall (self method : EHRClient) (w w' : World),
    for_each xs (fun _ => generate_request args) (self, w)
    = (Ok tt, (method, w')) ->
    exists q,
      method = set_request_data (request_data self ++ q)%list self
      /\ List.length q = List.length xs.
Proof.
  induction xs as [|x xs IH]; intros self method w w' Hrun; simpl in *.
  - injection Hrun as <- _. exists []. rewrite app_nil_r. now destruct self.
  - unfold bind in Hrun.
    destruct (generate_request_step args self w) as [evs [Hstep _]].
    rewrite Hstep in Hrun. cbv zeta in Hrun.
    destruct (fst (generation self args (env w))) as [request|e];
      [|discriminate].
    destruct (IH _ _ _ _ Hrun) as [q [Hm Hlen]].
    exists (request :: q). split; [|simpl; now rewrite Hlen].
    rewrite Hm. simpl. now rewrite <- app_assoc.
Qed.

(** Every event of the generation loop is a call of the data generator
    with [args] or of the strategy with the client's workflow, and the data
    generator is called at most once per turn. *)
Lemma generate_loop_events {X} (args : CallArgs) (xs : list X) :
  forall (self : EHRClient) (w : World),
    exists evs,
      trace (snd (snd (for_each xs (fun _ => generate_request args) (self, w))))
      = (trace w ++ evs)%list
      /\ Forall (generation_event args (workflow self)) evs
      /\ (List.length (filter is_generator_call evs) <= List.length xs)%nat.
Proof.
  induction xs as [|x xs IH]; intros self w; simpl.
  - exists []. rewrite app_nil_r. auto.
  - unfold bind. rewrite generate_request_run.
    destruct (data_generator_func self args (env w)) as [[data|e] e1].
    + cbv zeta.
      destruct (construct_request (strategy self) data (workflow self) e1)
        as [[request|e] e2].
      * destruct (IH (set_request_data (request_data self ++ [request])%list self)
                    (mkWorld e2 ((trace w ++ [EvDataGenerator args])
                                 ++ [EvConstructRequest data (workflow self)])%list))
          as [evs [Htr [Hall Hc]]].
        exists (EvDataGenerator args
                :: EvConstructRequest data (workflow self) :: evs).
        rewrite Htr. simpl in *. rewrite <- !app_assoc. simpl.
        split; [reflexivity|]. split; [|lia].
        constructor; [reflexivity|]. constructor; [reflexivity | exact Hall].
      * exists [EvDataGenerator args; EvConstructRequest data (workflow self)].
        simpl. rewrite <- app_assoc. simpl.
        split; [reflexivity|]. split; [|lia].
        constructor; [reflexivity|]. constructor; [reflexivity | constructor].
    + exists [EvDataGenerator args]. simpl.
      split; [reflexivity|]. split; [|lia].
      constructor; [reflexivity | constructor].
Qed.

Lemma Workflow_call_value (s : string) (wf : Workflow) :
  Workflow_call (ByValue s) = Ok wf ->
  In wf Workflow_members /\ Workflow_value wf = s.
Proof.
  simpl.
  destruct (find (fun m => String.eqb (Workflow_value m) s) Workflow_members)
    as [m|] eqn:Hfind; [|discriminate].
  intros Hm. injection Hm as <-.
  apply find_some in Hfind as [Hin Heq].
  split; [exact Hin | now apply String.eqb_eq].
Qed.

(** Looking up the value of a member finds the member, the values of the
    members of an enumeration being distinct. *)
Lemma Workflow_call_of_value (m : Workflow) :
  NoDup (map Workflow_value Workflow_members) ->
  In m Workflow_members ->
  Workflow_call (ByValue (Workflow_value m)) = Ok m.
Proof.
  simpl. induction Workflow_members as [|a l IH]; intros Hnd Hin; [destruct Hin|].
  simpl in *. inversion Hnd as [|v vs Hnotin Hnd']; subst.
  destruct (String.eqb_spec (Workflow_value a) (Workflow_value m)) as [Heq|Hne].
  - destruct Hin as [->|Hin]; [reflexivity|].
    exfalso. apply Hnotin. rewrite Heq. now apply in_map.
  - destruct Hin as [->|Hin]; [congruence|]. now apply IH.
Qed.

(** X6: with a [num] that is zero or negative the decorated function, on a
    use case of a known category with a workflow that resolves, returns a
    client with an empty queue right after configuring the data generators:
    the data generator function and the strategy are not called. *)
Theorem ehr_no_request_for_nonpositive_num
  (func : CallArgs -> Env -> result Data * Env) (workflow : WorkflowArg)
  (num : Z) (self : Caller) (args : Args) (w : World) (wf : Workflow) :
  is_use_case self = true ->
  in_UseCaseType (type_ self) = Ok true ->
  Workflow_call workflow = Ok wf ->
  (num <= 0)%Z ->
  ehr func workflow num self args w
  = (Ok (mkEHRClient func wf (strategy_ self) []),
     mkWorld (env (snd (configure_data_generators self wf w)))
       (trace (snd (configure_data_generators self wf w)) ++ [EvNewClient])%list).
Proof.
  intros Huc Htype Hwf Hnum. unfold ehr.
  rewrite (wrapper_run func workflow num self args w wf Huc Hwf). cbv zeta.
  rewrite Htype. unfold range.
  replace (Z.to_nat num) with 0%nat by lia. reflexivity.
Qed.

(** X7: the decorated function returns a client only when every check
    passed: the caller is a use case, the workflow identifier resolves and
    the caller's type is a use-case category. The client it returns is bound
    to the decorated function, to the resolved workflow (the member whose
    value is the identifier, when a string was given) and to the caller's
    strategy, and its queue has [max(0, num)] requests: each call starts
    from an empty queue. *)
Theorem ehr_returns_client_only_when_valid
  (func : CallArgs -> Env -> result Data * Env) (identifier : WorkflowArg)
  (num : Z) (self : Caller) (args : Args) (w w' : World) (method : EHRClient) :
  ehr func identifier num self args w = (Ok method, w') ->
  is_use_case self = true
  /\ in_UseCaseType (type_ self) = Ok true
  /\ Workflow_call identifier = Ok (workflow method)
  /\ (forall s, identifier = ByValue s ->
                Workflow_value (workflow method) = s)
  /\ data_generator_func method = func
  /\ strategy method = strategy_ self
  /\ len (request_data method) = Z.max 0 num.
Proof.
  intros Hrun.
  destruct (is_use_case self) eqn:Huc;
    [|rewrite (ehr_asserts_use_case _ _ _ _ _ _ Huc) in Hrun; discriminate].
  destruct (Workflow_call identifier) as [wf|e] eqn:Hwf.
  - unfold ehr in Hrun.
    rewrite (wrapper_run func identifier num self args w wf Huc Hwf) in Hrun.
    cbv zeta in Hrun.
    destruct (in_UseCaseType (type_ self)) as [[|]|exc];
      [|discriminate|discriminate].
    match type of Hrun with
    | context [for_each ?xs ?b ?s] => destruct (for_each xs b s)
        as [[[]|e] [method' w'']] eqn:Hloop
    end; [|discriminate].
    injection Hrun as -> ->.
    destruct (generate_loop_ok (self, args) (range num) _ _ _ _ Hloop)
      as [q [Hm Hlen]].
    subst method. simpl.
    repeat split; auto.
    + intros s ->. now apply Workflow_call_value.
    + unfold len, range in *. rewrite length_map, length_seq in Hlen. lia.
  - exfalso. unfold ehr, wrapper in Hrun. rewrite Huc in Hrun.
    unfold bind at 1 in Hrun. unfold ret at 1 in Hrun.
    unfold bind at 1 in Hrun. rewrite resolve_workflow_run, Hwf in Hrun.
    discriminate.
Qed.

(** X8: what the decorated function does to the outside once its checks
    passed, whether it returns or a generation raises: first the
    configuration of the data generators, then the construction of exactly
    one client, then generation calls only. Every call of the data generator
    gets the caller and the arguments the decorated function was called
    with, every call of the strategy gets the resolved workflow, and the
    data generator is called at most [num] times. *)
Theorem ehr_work_in_order
  (func : CallArgs -> Env -> result Data * Env) (workflow : WorkflowArg)
  (num : Z) (self : Caller) (args : Args) (w : World) (wf : Workflow) :
  is_use_case self = true ->
  in_UseCaseType (type_ self) = Ok true ->
  Workflow_call workflow = Ok wf ->
  exists configuration generation,
    trace (snd (ehr func workflow num self args w))
    = (trace w ++ configuration ++ EvNewClient :: generation)%list
    /\ configured configuration = data_generator_attributes self
    /\ filter is_new_client configuration = []
    /\ filter is_generation configuration = []
    /\ Forall (generation_event (self, args) wf) generation
    /\ (Z.of_nat (List.length (filter is_generator_call generation))
        <= Z.max 0 num)%Z.
Proof.
  intros Huc Htype Hwf. unfold ehr.
  rewrite (wrapper_run func workflow num self args w wf Huc Hwf). cbv zeta.
  rewrite Htype, configure_data_generators_run. simpl snd. simpl env.
  set (cfg := configuration_trace self wf 0 (data_generator_attributes self) (env w)).
  match goal with
  | |- context [for_each ?xs ?b (?m, ?w2)] =>
      destruct (generate_loop_events (self, args) xs m w2) as [evs [Htr [Hall Hc]]];
      destruct (for_each xs b (m, w2)) as [[[]|e] [method w']]
  end; simpl in *; exists cfg, evs; rewrite Htr, <- !app_assoc;
    (split; [reflexivity|]);
    (split; [apply configured_configuration_trace|]);
    (split; [apply quiet_configuration_trace|]);
    (split; [apply quiet_configuration_trace|]);
    (split; [exact Hall|]);
    unfold range in Hc; rewrite length_map, length_seq in Hc; lia.
Qed.

(** X9: a member of [Workflow] and its value are interchangeable as the
    [workflow] argument of the decorator: the decorated function behaves the
    same with either. *)
Theorem ehr_workflow_member_or_value
  (func : CallArgs -> Env -> result Data * Env) (m : Workflow)
  (num : Z) (self : Caller) (args : Args) (w : World) :
  NoDup (map Workflow_value Workflow_members) ->
  In m Workflow_members ->
  ehr func (ByValue (Workflow_value m)) num self args w
  = ehr func (ByMember m) num self args w.
Proof.
  intros Hnd Hin.
  pose proof (Workflow_call_of_value m Hnd Hin) as Hcall.
  unfold ehr, wrapper, bind.
  destruct (is_use_case self); simpl; [|reflexivity].
  rewrite !resolve_workflow_run, Hcall. reflexivity.
Qed.

End Decoration.

(** * Runs in the sample setting *)

#[local] Existing Instance Sample.sample.

(** C4: a use case with exactly two data generators. The decorated function
    returns its client and has configured both generators, and no warning
    was logged: the test [i > 1] of the loop holds from the third attribute
    on, while the record it logs reads "More than one DataGenerator
    instances found." *)
Theorem ehr_two_data_generators_no_warning :
  is_Ok (fst (ehr Sample.sample_func (ByValue "patient-view") 1
                (Sample.use_case ["data_generator"; "second_generator"])
                false Sample.start)) = true
  /\ configured
       (trace (snd (ehr Sample.sample_func (ByValue "patient-view") 1
                      (Sample.use_case ["data_generator"; "second_generator"])
                      false Sample.start)))
     = ["data_generator"; "second_generator"]
  /\ filter is_warning
       (trace (snd (ehr Sample.sample_func (ByValue "patient-view") 1
                      (Sample.use_case ["data_generator"; "second_generator"])
                      false Sample.start)))
     = [].
Proof. vm_compute. repeat split. Qed.

(** With a third data generator the warning is logged, once. *)
Example ehr_three_data_generators_one_warning :
  filter is_warning
    (trace (snd (ehr Sample.sample_func (ByValue "patient-view") 1
                   (Sample.use_case ["a"; "b"; "c"]) false Sample.start)))
  = [EvLog WARNING "More than one DataGenerator instances found."].
Proof. vm_compute. reflexivity. Qed.

(** C5 as stated fails: an unknown workflow identifier given to the
    decorated function on an object that is not a use case raises the
    [AssertionError] of the first check, not a [ValueError]. *)
Lemma ehr_unknown_workflow_assertion_first :
  is_Ok (Workflow_call (ByValue "bogus")) = false
  /\ fst (ehr Sample.sample_func (ByValue "bogus") 1
            Sample.not_a_use_case false Sample.start)
     = Raise (AssertionError
                "Notebook must be subclass of valid Use Case strategy!")
  /\ ~ (exists msg,
          fst (ehr Sample.sample_func (ByValue "bogus") 1
                 Sample.not_a_use_case false Sample.start)
          = Raise (ValueError msg)).
Proof.
  split; [reflexivity|]. split; [reflexivity|].
  intros [msg Hmsg]. vm_compute in Hmsg. discriminate.
Qed.

(** C8 as stated fails: on a caller whose type is not a use-case category
    (a member of another [Enum], which the membership test answers with
    false), an unknown workflow identifier is reported first, with a
    [ValueError] and not a [NotImplementedError]. *)
Lemma ehr_unknown_type_workflow_first :
  in_UseCaseType (type_ Sample.unknown_use_case) = Ok false
  /\ fst (ehr Sample.sample_func (ByValue "bogus") 1
            Sample.unknown_use_case false Sample.start)
     = Raise (ValueError
                "'bogus' is not a valid Workflow: please select from ['patient-view', 'order-sign']")
  /\ ~ (exists msg,
          fst (ehr Sample.sample_func (ByValue "bogus") 1
                 Sample.unknown_use_case false Sample.start)
          = Raise (NotImplementedError msg)).
Proof.
  split; [reflexivity|]. split; [reflexivity|].
  intros [msg Hmsg]. vm_compute in Hmsg. discriminate.
Qed.

(** The spec's scenario: three requests, answered 200, 500, 200. *)
Example send_request_200_500_200 :
  fst (send_request
         (Sample.client [Sample.request 0; Sample.request 1; Sample.request 2])
         Sample.up Sample.start)
  = Ok [Sample.cards; empty_mapping; Sample.cards].
Proof. reflexivity. Qed.

(** The spec's scenario: every request times out. *)
Example send_request_all_time_out :
  fst (send_request
         (Sample.client [Sample.request 0; Sample.request 1; Sample.request 2])
         Sample.down Sample.start)
  = Ok [empty_mapping; empty_mapping; empty_mapping].
Proof. reflexivity. Qed.

(** An exception that is not httpx's is not caught: the sixth answer of the
    sample destination ends the batch. *)
Example send_request_other_exception :
  fst (send_request
         (Sample.client [Sample.request 0; Sample.request 1; Sample.request 2;
                         Sample.request 3; Sample.request 4; Sample.request 5])
         Sample.up Sample.start)
  = Raise (OtherException "stream closed").
Proof. reflexivity. Qed.

(** A negative [num] gives an empty queue: [range] of it is empty. *)
Example ehr_negative_num :
  option_map (fun method => request_data method)
    (match fst (ehr Sample.sample_func (ByValue "patient-view") (-1)
                  (Sample.use_case []) false Sample.start) with
     | Ok method => Some method
     | Raise _ => None
     end)
  = Some [].
Proof. reflexivity. Qed.

(** ** The theorems with hypotheses, at concrete inputs *)

Lemma generate_request_appends_one_witness :
  generate_request (Sample.use_case [], false)
    (Sample.client [Sample.request 7], Sample.start)
  = (Ok tt,
     (Sample.client [Sample.request 7; Sample.request 0],
      mkWorld (Sample.mkEnv 0 1)
        [EvDataGenerator (Sample.use_case [], false);
         EvConstructRequest 0%Z Sample.patient_view]))
  /\ List.length
       (request_data (Sample.client [Sample.request 7; Sample.request 0]))
     = 2%nat.
Proof.
  split; [reflexivity|].
  exact (proj1 (proj2
    (generate_request_appends_one (Sample.use_case [], false)
       (Sample.client [Sample.request 7])
       (Sample.client [Sample.request 7; Sample.request 0])
       Sample.start
       (mkWorld (Sample.mkEnv 0 1)
          [EvDataGenerator (Sample.use_case [], false);
           EvConstructRequest 0%Z Sample.patient_view])
       eq_refl))).
Defined.

Lemma generate_request_atomic_on_failure_witness :
  fst (data_generator_func (Sample.client [Sample.request 7])
         (Sample.use_case [], true) (env Sample.start))
  = Raise (OtherException "no data")
  /\ exists w',
       generate_request (Sample.use_case [], true)
         (Sample.client [Sample.request 7], Sample.start)
       = (Raise (OtherException "no data"),
          (Sample.client [Sample.request 7], w'))
       /\ request_data
            (fst (snd (generate_request (Sample.use_case [], true)
                         (Sample.client [Sample.request 7], Sample.start))))
          = request_data (Sample.client [Sample.request 7]).
Proof.
  split; [reflexivity|].
  apply generate_request_atomic_on_failure. left. reflexivity.
Defined.

Lemma send_request_one_result_per_request_witness :
  forallb classified
    (post_outcomes Sample.up
       (request_data
          (Sample.client [Sample.request 0; Sample.request 1; Sample.request 2]))
       (env Sample.start)) = true
  /\ exists json_responses w',
       send_request
         (Sample.client [Sample.request 0; Sample.request 1; Sample.request 2])
         Sample.up Sample.start = (Ok json_responses, w')
       /\ List.length json_responses = 3%nat.
Proof.
  split; [reflexivity|].
  destruct (send_request_one_result_per_request
              (Sample.client [Sample.request 0; Sample.request 1; Sample.request 2])
              Sample.up Sample.start eq_refl)
    as [json_responses [w' [Hrun [Hlen _]]]].
  exists json_responses, w'. split; [exact Hrun | exact Hlen].
Defined.

Lemma send_request_isolates_failures_witness :
  request_data
    (Sample.client [Sample.request 0; Sample.request 1; Sample.request 2])
  = ([Sample.request 0] ++ Sample.request 1 :: [Sample.request 2])%list
  /\ forallb classified
       (post_outcomes Sample.up [Sample.request 0] (env Sample.start)) = true
  /\ is_failure
       (fst (post Sample.up (model_dump true (Sample.request 1))
               (httpx_Timeout 10 None)
               (env_after_posts Sample.up [Sample.request 0] (env Sample.start))))
     = true
  /\ exists json_responses w',
       send_request
         (Sample.client [Sample.request 0; Sample.request 1; Sample.request 2])
         Sample.up Sample.start = (Ok json_responses, w')
       /\ nth_error json_responses 1 = Some empty_mapping
       /\ List.length json_responses = 3%nat.
Proof.
  split; [reflexivity|]. split; [reflexivity|]. split; [reflexivity|].
  destruct (send_request_isolates_failures
              (Sample.client [Sample.request 0; Sample.request 1; Sample.request 2])
              Sample.up Sample.start
              [Sample.request 0] (Sample.request 1) [Sample.request 2]
              eq_refl eq_refl eq_refl) as [_ [_ Hrest]].
  exact (Hrest eq_refl).
Defined.

Lemma ehr_queue_length_witness :
  is_use_case (Sample.use_case ["data_generator"]) = true
  /\ in_UseCaseType (type_ (Sample.use_case ["data_generator"])) = Ok true
  /\ Workflow_call (ByValue "patient-view") = Ok Sample.patient_view
  /\ (0 <= 2)%Z
  /\ (exists method w',
        ehr Sample.sample_func (ByValue "patient-view") 2
          (Sample.use_case ["data_generator"]) false Sample.start
        = (Ok method, w')
        /\ len (request_data method) = 2%Z)
  /\ (exists w',
        ehr Sample.sample_func (ByValue "patient-view") 5
          (Sample.use_case ["data_generator"]) false Sample.start
        = (Raise (ValueError "no more patients"), w')).
Proof.
  split; [reflexivity|]. split; [reflexivity|]. split; [reflexivity|].
  split; [lia|]. split.
  - destruct (ehr_queue_length Sample.sample_func (ByValue "patient-view") 2
                (Sample.use_case ["data_generator"]) false Sample.start
                Sample.patient_view eq_refl eq_refl eq_refl ltac:(lia))
      as [Hall _].
    destruct (Hall eq_refl) as [method [w' [evs [Hrun [Hlen _]]]]].
    exists method, w'. split; [exact Hrun | exact Hlen].
  - destruct (ehr_queue_length Sample.sample_func (ByValue "patient-view") 5
                (Sample.use_case ["data_generator"]) false Sample.start
                Sample.patient_view eq_refl eq_refl eq_refl ltac:(lia))
      as [_ Hfirst].
    destruct (Hfirst 3%nat (ValueError "no more patients") eq_refl eq_refl)
      as [w' [evs [Hrun _]]].
    exists w'. exact Hrun.
Defined.

Lemma ehr_rejects_unknown_workflow_witness :
  is_use_case (Sample.use_case []) = true
  /\ is_Ok (Workflow_call (ByValue "bogus")) = false
  /\ exists msg,
       ehr Sample.sample_func (ByValue "bogus") 3 (Sample.use_case []) false
         Sample.start = (Raise (ValueError msg), Sample.start)
       /\ occurs_in "'order-sign'" msg.
Proof.
  split; [reflexivity|]. split; [reflexivity|].
  destruct (ehr_rejects_unknown_workflow Sample.sample_func (ByValue "bogus") 3
              (Sample.use_case []) false Sample.start eq_refl eq_refl)
    as [s [msg [_ [_ [Hrun Hlist]]]]].
  exists msg. split; [exact Hrun|].
  apply (Hlist Sample.order_sign). right. left. reflexivity.
Defined.

Lemma ehr_rejects_unknown_use_case_type_witness :
  is_use_case Sample.unknown_use_case = true
  /\ Workflow_call (ByValue "patient-view") = Ok Sample.patient_view
  /\ in_UseCaseType (type_ Sample.unknown_use_case) = Ok false
  /\ exists w',
       ehr Sample.sample_func (ByValue "patient-view") 3
         Sample.unknown_use_case false Sample.start
       = (Raise (NotImplementedError
                   "Use case Modality.imaging not recognised, check if implemented."),
          w').
Proof.
  split; [reflexivity|]. split; [reflexivity|]. split; [reflexivity|].
  destruct (ehr_rejects_unknown_use_case_type Sample.sample_func
              (ByValue "patient-view") 3 Sample.unknown_use_case false
              Sample.start Sample.patient_view eq_refl eq_refl eq_refl)
    as [w' [evs [Hrun _]]].
  exists w'. exact Hrun.
Defined.

(** ** The further properties with hypotheses, at concrete inputs *)

Lemma send_request_aborts_on_unhandled_witness :
  request_data
    (Sample.client [Sample.request 0; Sample.request 1; Sample.request 2;
                    Sample.request 3; Sample.request 4; Sample.request 5;
                    Sample.request 6])
  = ([Sample.request 0; Sample.request 1; Sample.request 2;
      Sample.request 3; Sample.request 4]
     ++ Sample.request 5 :: [Sample.request 6])%list
  /\ forallb classified
       (post_outcomes Sample.up
          [Sample.request 0; Sample.request 1; Sample.request 2;
           Sample.request 3; Sample.request 4] (env Sample.start)) = true
  /\ handled (OtherException "stream closed") = false
  /\ fst (post Sample.up (model_dump true (Sample.request 5))
            (httpx_Timeout 10 None)
            (env_after_posts Sample.up
               [Sample.request 0; Sample.request 1; Sample.request 2;
                Sample.request 3; Sample.request 4] (env Sample.start)))
     = Raise (OtherException "stream closed")
  /\ exists w' evs,
       send_request
         (Sample.client [Sample.request 0; Sample.request 1; Sample.request 2;
                         Sample.request 3; Sample.request 4; Sample.request 5;
                         Sample.request 6])
         Sample.up Sample.start
       = (Raise (OtherException "stream closed"), w')
       /\ trace w' = (trace Sample.start ++ evs)%list
       /\ List.length (posted evs) = 6%nat.
Proof.
  split; [reflexivity|]. split; [reflexivity|]. split; [reflexivity|].
  split; [reflexivity|].
  destruct (send_request_aborts_on_unhandled
              (Sample.client [Sample.request 0; Sample.request 1; Sample.request 2;
                              Sample.request 3; Sample.request 4; Sample.request 5;
                              Sample.request 6])
              Sample.up Sample.start
              [Sample.request 0; Sample.request 1; Sample.request 2;
               Sample.request 3; Sample.request 4]
              (Sample.request 5) [Sample.request 6]
              (OtherException "stream closed")
              eq_refl eq_refl eq_refl (or_introl eq_refl))
    as [w' [evs [Hrun [Htr [Hp _]]]]].
  exists w', evs. split; [exact Hrun|]. split; [exact Htr|].
  rewrite Hp. reflexivity.
Defined.

Lemma send_request_no_retry_witness :
  forallb classified
    (post_outcomes Sample.up
       (request_data
          (Sample.client [Sample.request 0; Sample.request 1; Sample.request 2]))
       (env Sample.start)) = true
  /\ exists json_responses w' evs,
       send_request
         (Sample.client [Sample.request 0; Sample.request 1; Sample.request 2])
         Sample.up Sample.start = (Ok json_responses, w')
       /\ trace w' = (trace Sample.start ++ evs)%list
       /\ List.length (posted evs) = 3%nat
       /\ List.length (filter is_error_record evs) = 1%nat.
Proof.
  split; [reflexivity|].
  destruct (send_request_no_retry
              (Sample.client [Sample.request 0; Sample.request 1; Sample.request 2])
              Sample.up Sample.start eq_refl)
    as [json_responses [w' [evs [Hrun [Htr [Hp [Hc _]]]]]]].
  exists json_responses, w', evs.
  split; [exact Hrun|]. split; [exact Htr|]. split.
  - rewrite Hp. reflexivity.
  - rewrite Hc. reflexivity.
Defined.

Lemma send_request_logs_status_and_url_witness :
  request_data
    (Sample.client [Sample.request 0; Sample.request 1; Sample.request 2])
  = ([Sample.request 0] ++ Sample.request 1 :: [Sample.request 2])%list
  /\ forallb classified
       (post_outcomes Sample.up [Sample.request 0] (env Sample.start)) = true
  /\ fst (post Sample.up (model_dump true (Sample.request 1))
            (httpx_Timeout 10 None)
            (env_after_posts Sample.up [Sample.request 0] (env Sample.start)))
     = Ok (mkResponse 500 (Ok JNull))
  /\ is_success (status_code (mkResponse 500 (Ok JNull))) = false
  /\ exists evs,
       trace (snd (send_request
                     (Sample.client [Sample.request 0; Sample.request 1;
                                     Sample.request 2])
                     Sample.up Sample.start))
       = (trace Sample.start ++ evs)%list
       /\ In (EvLog ERROR
                "Error response 500 while requesting URL('http://ehr.example/cds').")
             evs.
Proof.
  split; [reflexivity|]. split; [reflexivity|]. split; [reflexivity|].
  split; [reflexivity|].
  exact (send_request_logs_status_and_url
           (Sample.client [Sample.request 0; Sample.request 1; Sample.request 2])
           Sample.up Sample.start
           [Sample.request 0] (Sample.request 1) [Sample.request 2]
           (mkResponse 500 (Ok JNull)) eq_refl eq_refl eq_refl eq_refl).
Defined.

Lemma send_request_keeps_the_queue_witness :
  is_Ok (fst (send_request
                (fst (run_operations
                        [OpSend Sample.up; OpGenerate (Sample.use_case [], false)]
                        (Sample.client [Sample.request 7], Sample.start)))
                Sample.up
                (snd (run_operations
                        [OpSend Sample.up; OpGenerate (Sample.use_case [], false)]
                        (Sample.client [Sample.request 7], Sample.start)))))
  = true
  /\ exists added evs,
       request_data
         (fst (run_operations
                 [OpSend Sample.up; OpGenerate (Sample.use_case [], false)]
                 (Sample.client [Sample.request 7], Sample.start)))
       = (request_data (Sample.client [Sample.request 7]) ++ added)%list
       /\ trace (snd (send_request
                        (fst (run_operations
                                [OpSend Sample.up;
                                 OpGenerate (Sample.use_case [], false)]
                                (Sample.client [Sample.request 7], Sample.start)))
                        Sample.up
                        (snd (run_operations
                                [OpSend Sample.up;
                                 OpGenerate (Sample.use_case [], false)]
                                (Sample.client [Sample.request 7], Sample.start)))))
          = (trace (snd (run_operations
                           [OpSend Sample.up;
                            OpGenerate (Sample.use_case [], false)]
                           (Sample.client [Sample.request 7], Sample.start)))
             ++ evs)%list
       /\ posted evs
          = map (wire Sample.up)
              (request_data (Sample.client [Sample.request 7]) ++ added).
Proof.
  split; [reflexivity|].
  exact (proj1 (send_request_keeps_the_queue
                  [OpSend Sample.up; OpGenerate (Sample.use_case [], false)]
                  (Sample.client [Sample.request 7]) Sample.start Sample.up
                  eq_refl)).
Defined.

Lemma ehr_no_request_for_nonpositive_num_witness :
  is_use_case (Sample.use_case ["data_generator"]) = true
  /\ in_UseCaseType (type_ (Sample.use_case ["data_generator"])) = Ok true
  /\ Workflow_call (ByValue "patient-view") = Ok Sample.patient_view
  /\ (-3 <= 0)%Z
  /\ ehr Sample.sample_func (ByValue "patient-view") (-3)
       (Sample.use_case ["data_generator"]) false Sample.start
     = (Ok (Sample.client []),
        mkWorld (Sample.mkEnv 0 0)
          [EvSetWorkflow "data_generator" Sample.patient_view; EvNewClient]).
Proof.
  split; [reflexivity|]. split; [reflexivity|]. split; [reflexivity|].
  split; [lia|].
  exact (ehr_no_request_for_nonpositive_num Sample.sample_func
           (ByValue "patient-view") (-3) (Sample.use_case ["data_generator"])
           false Sample.start Sample.patient_view
           eq_refl eq_refl eq_refl ltac:(lia)).
Defined.

Lemma ehr_returns_client_only_when_valid_witness :
  ehr Sample.sample_func (ByValue "order-sign") 2
    (Sample.use_case ["data_generator"]) false Sample.start
  = (Ok (mkEHRClient Sample.sample_func Sample.order_sign Sample.sample_strategy
           [[("hook", Some (JStr "order-sign")); ("hookInstance", Some (JNum 0));
             ("fhirServer", None); ("prefetch", Some (JObj []))];
            [("hook", Some (JStr "order-sign")); ("hookInstance", Some (JNum 1));
             ("fhirServer", None); ("prefetch", Some (JObj []))]]),
     snd (ehr Sample.sample_func (ByValue "order-sign") 2
            (Sample.use_case ["data_generator"]) false Sample.start))
  /\ Workflow_call (ByValue "order-sign") = Ok Sample.order_sign
  /\ len [Sample.request 0; Sample.request 1] = Z.max 0 2.
Proof.
  split; [reflexivity|].
  destruct (ehr_returns_client_only_when_valid Sample.sample_func
              (ByValue "order-sign") 2 (Sample.use_case ["data_generator"])
              false Sample.start
              (snd (ehr Sample.sample_func (ByValue "order-sign") 2
                      (Sample.use_case ["data_generator"]) false Sample.start))
              _ eq_refl)
    as [_ [_ [Hwf [_ [_ [_ Hlen]]]]]].
  split; [exact Hwf | exact Hlen].
Defined.

Lemma ehr_work_in_order_witness :
  is_use_case (Sample.use_case ["data_generator"; "broken_generator"]) = true
  /\ in_UseCaseType
       (type_ (Sample.use_case ["data_generator"; "broken_generator"])) = Ok true
  /\ Workflow_call (ByValue "patient-view") = Ok Sample.patient_view
  /\ exists configuration generation,
       trace (snd (ehr Sample.sample_func (ByValue "patient-view") 5
                     (Sample.use_case ["data_generator"; "broken_generator"])
                     false Sample.start))
       = (trace Sample.start ++ configuration ++ EvNewClient :: generation)%list
       /\ configured configuration = ["data_generator"; "broken_generator"]
       /\ Forall (generation_event
                    (Sample.use_case ["data_generator"; "broken_generator"], false)
                    Sample.patient_view) generation.
Proof.
  split; [reflexivity|]. split; [reflexivity|]. split; [reflexivity|].
  destruct (ehr_work_in_order Sample.sample_func (ByValue "patient-view") 5
              (Sample.use_case ["data_generator"; "broken_generator"])
              false Sample.start Sample.patient_view eq_refl eq_refl eq_refl)
    as [configuration [generation [Htr [Hcfg [_ [_ [Hall _]]]]]]].
  exists configuration, generation.
  split; [exact Htr|]. split; [exact Hcfg | exact Hall].
Defined.

Lemma ehr_workflow_member_or_value_witness :
  NoDup (map Workflow_value Workflow_members)
  /\ In Sample.order_sign Workflow_members
  /\ ehr Sample.sample_func (ByValue "order-sign") 2
       (Sample.use_case ["data_generator"]) false Sample.start
     = ehr Sample.sample_func (ByMember Sample.order_sign) 2
         (Sample.use_case ["data_generator"]) false Sample.start.
Proof.
  assert (Hnd : NoDup (map Workflow_value Workflow_members)).
  { simpl. constructor.
    - simpl. intros [Heq|[]]. discriminate.
    - constructor; [intros [] | constructor]. }
  split; [exact Hnd|]. split; [right; left; reflexivity|].
  exact (ehr_workflow_member_or_value Sample.sample_func Sample.order_sign 2
           (Sample.use_case ["data_generator"]) false Sample.start Hnd
           (or_intror (or_introl eq_refl))).
Defined.

(** Up to Python 3.11 a type that is not a member of any [Enum] makes the
    membership test raise: the decorated function raises its [TypeError],
    not [NotImplementedError]. *)
Example ehr_type_not_an_enum_member :
  fst (ehr Sample.sample_func (ByValue "patient-view") 1
         Sample.untyped_use_case false Sample.start)
  = Raise (TypeError
             "unsupported operand type(s) for 'in': 'str' and 'EnumMeta'").
Proof. reflexivity. Qed.

